(** * robot_output_to_artifacts: Robot Framework output.xml to run-artifacts JSON

    A shallow embedding of [src/python/robot_output_to_artifacts.py] and the
    properties of its specification.

    Modelling conventions.
    - A Python [str] is a [string]: the UTF-8 bytes of the text.  The bytes
      of a code point above 127 are all above 127, so the regular expression
      [[^a-zA-Z0-9]+] treats them as it treats the code point.  [lower]
      gives the ASCII letters that [str.lower()] gives, those that come from
      U+0130 and U+212A included.
    - A Python [int] is a [Z]; the step counter, which only counts, is a [nat].
    - A Python [dict] with string keys is an association list in insertion
      order without repeated keys ([dict_set] keeps it so).
    - Library calls whose code is not part of the repository ([strptime],
      [datetime.timestamp], [json.loads], [Path.resolve], the file system,
      Robot Framework's [ExecutionResult]) are the fields of the class
      [Platform]. *)

From Stdlib Require Import ZArith NArith List Bool Ascii String Lia FunInd.
From Stdlib Require Import Numbers.DecimalString.
From Stdlib Require Numbers.DecimalNat.
From Stdlib Require Import Floats.SpecFloat.
Import ListNotations.

Set Warnings "-register-all".

Local Open Scope string_scope.
Local Open Scope list_scope.

(** ** Python strings *)

Module PyStr.

Definition in_range (lo hi : N) (c : ascii) : bool :=
  let n := N_of_ascii c in (N.leb lo n && N.leb n hi)%bool.

Definition is_upper : ascii -> bool := in_range 65 90.
Definition is_lower : ascii -> bool := in_range 97 122.
Definition is_digit : ascii -> bool := in_range 48 57.

(** The character class [a-zA-Z0-9] of the regular expression. *)
Definition is_alnum (c : ascii) : bool :=
  (is_lower c || is_upper c || is_digit c)%bool.

(** What [str.strip()] removes of ASCII: tab, LF, VT, FF, CR, FS, GS, RS,
    US, space.  (The white space above 127 that it removes as well is left
    to [re.sub] and [strip("-")], which remove it at the ends all the
    same.) *)
Definition is_space (c : ascii) : bool :=
  (in_range 9 13 c || in_range 28 32 c)%bool.

Definition is_hyphen (c : ascii) : bool := Ascii.eqb c "-"%char.

Definition lower_char (c : ascii) : ascii :=
  if is_upper c then ascii_of_N (N_of_ascii c + 32) else c.

(** The lower-casing of the ASCII letters, byte by byte. *)
Fixpoint ascii_lower (s : string) : string :=
  match s with
  | EmptyString => EmptyString
  | String c r => String (lower_char c) (ascii_lower r)
  end.

(** The bytes C4 B0 of U+0130, LATIN CAPITAL LETTER I WITH DOT ABOVE. *)
Definition is_dotted_capital_i (c d : ascii) : bool :=
  (N.eqb (N_of_ascii c) 196 && N.eqb (N_of_ascii d) 176)%bool.

(** The bytes E2 84 AA of U+212A, KELVIN SIGN. *)
Definition is_kelvin_sign (c d e : ascii) : bool :=
  (N.eqb (N_of_ascii c) 226 && N.eqb (N_of_ascii d) 132
   && N.eqb (N_of_ascii e) 170)%bool.

(** The two code points above 127 whose lower-casing holds an ASCII letter:
    U+0130 becomes [i] and U+0307 (bytes CC 87), U+212A becomes [k]. *)
Function lower_special (s : string) {struct s} : string :=
  match s with
  | EmptyString => EmptyString
  | String c r =>
      match r with
      | String d r' =>
          if is_dotted_capital_i c d
          then String "i"%char
                 (String (ascii_of_N 204) (String (ascii_of_N 135)
                    (lower_special r')))
          else
            match r' with
            | String e r'' =>
                if is_kelvin_sign c d e
                then String "k"%char (lower_special r'')
                else String c (lower_special r)
            | EmptyString => String c (lower_special r)
            end
      | EmptyString => String c EmptyString
      end
  end.

(** [s] begins with the bytes of one of the two code points. *)
Definition starts_special (s : string) : bool :=
  match s with
  | String c (String d r') =>
      (is_dotted_capital_i c d
       || match r' with
          | String e _ => is_kelvin_sign c d e
          | EmptyString => false
          end)%bool
  | _ => false
  end.

(** A byte that is a code point of its own. *)
Definition is_ascii (c : ascii) : bool := N.ltb (N_of_ascii c) 128.

(** [str.lower()], as far as ASCII goes: the ASCII letters are lower-cased
    and the two code points above are replaced.  Every other code point
    above 127 lower-cases to code points above 127 again; its bytes stay as
    they are, which [re.sub], the one reader of the result, cannot tell
    apart. *)
Definition lower (s : string) : string := ascii_lower (lower_special s).

Fixpoint lstrip_by (p : ascii -> bool) (s : string) : string :=
  match s with
  | EmptyString => EmptyString
  | String c r => if p c then lstrip_by p r else s
  end.

Fixpoint rstrip_by (p : ascii -> bool) (s : string) : string :=
  match s with
  | EmptyString => EmptyString
  | String c r =>
      match rstrip_by p r with
      | EmptyString => if p c then EmptyString else String c EmptyString
      | r' => String c r'
      end
  end.

(** [str.strip(chars)]: both ends. *)
Definition strip_by (p : ascii -> bool) (s : string) : string :=
  rstrip_by p (lstrip_by p s).

Fixpoint forallb (p : ascii -> bool) (s : string) : bool :=
  match s with
  | EmptyString => true
  | String c r => (p c && forallb p r)%bool
  end.

Definition head (s : string) : option ascii :=
  match s with
  | EmptyString => None
  | String c _ => Some c
  end.

Fixpoint last (s : string) : option ascii :=
  match s with
  | EmptyString => None
  | String c EmptyString => Some c
  | String _ r => last r
  end.

Definition starts_with (p : ascii -> bool) (s : string) : bool :=
  match head s with
  | Some c => p c
  | None => false
  end.

Definition ends_with (p : ascii -> bool) (s : string) : bool :=
  match last s with
  | Some c => p c
  | None => false
  end.

(** Two hyphens side by side somewhere in [s]. *)
Fixpoint has_double_hyphen (s : string) : bool :=
  match s with
  | String c ((String d _) as r) =>
      ((is_hyphen c && is_hyphen d) || has_double_hyphen r)%bool
  | _ => false
  end.

(** Truth value of a [str]: non-empty. *)
Definition truthy (s : string) : bool :=
  match s with
  | EmptyString => false
  | String _ _ => true
  end.

(** [str(n)] for a non-negative [int]. *)
Definition of_nat (n : nat) : string :=
  NilZero.string_of_uint (Nat.to_uint n).

End PyStr.

(** ** [sanitize_id] *)

(** [re.sub(r"[^a-zA-Z0-9]+", "-", s)]: the scan goes left to right and every
    maximal run of characters outside the class becomes one hyphen.
    [in_run] says that the character before belonged to such a run. *)
Fixpoint re_sub_non_alnum (in_run : bool) (s : string) : string :=
  match s with
  | EmptyString => EmptyString
  | String c r =>
      if PyStr.is_alnum c then String c (re_sub_non_alnum false r)
      else if in_run then re_sub_non_alnum true r
      else String "-"%char (re_sub_non_alnum true r)
  end.

Definition fallback_slug : string := "robot-suite".

Definition sanitize_id (value : string) : string :=
  let cleaned :=
    re_sub_non_alnum false (PyStr.lower (PyStr.strip_by PyStr.is_space value)) in
  let stripped := PyStr.strip_by PyStr.is_hyphen cleaned in
  if PyStr.truthy stripped then stripped else fallback_slug.

(** The specification's wording (section 4.1): lower-case, replace every
    maximal run of characters other than ASCII letters and digits with one
    hyphen, strip the hyphens at both ends, fall back when nothing is left. *)
Definition sanitize_cleaned_spec (text : string) : string :=
  PyStr.strip_by PyStr.is_hyphen (re_sub_non_alnum false (PyStr.lower text)).


(** A character a slug may hold. *)
Definition is_slug_char (c : ascii) : bool :=
  (PyStr.is_lower c || PyStr.is_digit c || PyStr.is_hyphen c)%bool.

(** ** Python values and dictionaries *)

(** The objects [json.loads] returns and [json.dumps] accepts. *)
Inductive value : Type :=
| VNone
| VBool (b : bool)
| VInt (z : Z)
| VFloat (f : spec_float)
| VStr (s : string)
| VList (l : list value)
| VDict (d : list (string * value)).

Definition dict : Type := list (string * value).

(** [d[k]] as an option: the value of the first (and only) entry for [k]. *)
Fixpoint dict_lookup (d : dict) (k : string) : option value :=
  match d with
  | [] => None
  | (k', v) :: r => if String.eqb k' k then Some v else dict_lookup r k
  end.

(** [d.get(k, default)] *)
Definition dict_get (d : dict) (k : string) (default : value) : value :=
  match dict_lookup d k with
  | Some v => v
  | None => default
  end.

(** [d[k] = v]: an existing key keeps its place, a new one goes last. *)
Fixpoint dict_set (d : dict) (k : string) (v : value) : dict :=
  match d with
  | [] => [(k, v)]
  | (k', v') :: r =>
      if String.eqb k' k then (k, v) :: r else (k', v') :: dict_set r k v
  end.

(** [k in d] *)
Definition has_key (d : dict) (k : string) : bool :=
  match dict_lookup d k with
  | Some _ => true
  | None => false
  end.

(** Python's truth value of an object. *)
Definition truthy (v : value) : bool :=
  match v with
  | VNone => false
  | VBool b => b
  | VInt z => negb (Z.eqb z 0)
  | VFloat (S754_zero _) => false
  | VFloat _ => true
  | VStr s => PyStr.truthy s
  | VList l => match l with [] => false | _ => true end
  | VDict d => match d with [] => false | _ => true end
  end.

(** ** Errors *)

Inductive pyerror : Type :=
| DataError          (* ExecutionResult cannot read the result file *)
| OSError            (* read_text on a path that cannot be read *)
| UnicodeDecodeError (* read_text on bytes that are not UTF-8 *)
| JSONDecodeError    (* json.loads on text that is not JSON *)
| AttributeError     (* .get on a manifest that is not a dict *)
| FileExistsError    (* mkdir below a path that is a file *)
| UnicodeEncodeError. (* write_text on text that UTF-8 cannot encode *)

Inductive result (A : Type) : Type :=
| Ok (a : A)
| Raise (e : pyerror).

Arguments Ok {A} a.
Arguments Raise {A} e.

Definition bind {A B : Type} (m : result A) (f : A -> result B) : result B :=
  match m with
  | Ok a => f a
  | Raise e => Raise e
  end.

Notation "x <- m ;; k" := (bind m (fun x => k))
  (at level 61, m at next level, right associativity).

(** ** The result tree *)

(** What [end_keyword] reads of a keyword invocation.  [starttime] and
    [elapsedtime] are read with [getattr] and a default, so they may be
    missing. *)
Record Keyword : Type := mkKeyword {
  status : string;
  kwname : string;
  args : list string;
  starttime : option string;
  elapsedtime : option Z
}.

(** A keyword invocation with the invocations of its body. *)
Inductive KeywordNode : Type :=
| Node (keyword : Keyword) (children : list KeywordNode).

(** What [main] reads of [ExecutionResult(path)]: the name of the root suite
    ([None] when there is no suite or no name) and the keyword invocations,
    top level ones in execution order. *)
Record ExecutionResult : Type := mkExecutionResult {
  suite_name : option string;
  keywords : list KeywordNode
}.

(** ** Time stamps *)

(** A naive [datetime], as [datetime.strptime] builds it. *)
Record datetime : Type := mkDatetime {
  year : Z; month : Z; day : Z;
  hour : Z; minute : Z; second : Z; microsecond : Z
}.

(** ** The platform: library calls and the world they read *)

Class Platform : Type := {
  (** [datetime.strptime(value, pattern)]; [None] is its [ValueError]. *)
  strptime : string -> string -> option datetime;
  (** [int(dt.timestamp() * 1000)], in the local time zone; [None] is the
      [ValueError] of [timestamp()], raised when the search for the instant
      leaves the years 1 to 9999. *)
  timestamp_ms : datetime -> option Z;
  (** [json.loads(text)]; [None] is its [JSONDecodeError]. *)
  json_loads : string -> option value;
  (** [Path(p).resolve()] *)
  resolve : string -> string;
  (** [Path(p) / q] *)
  path_join : string -> string -> string;
  (** [Path(p).exists()] *)
  path_exists : string -> bool;
  (** [Path(p).read_text(encoding="utf-8")] *)
  read_text : string -> result string;
  (** [ExecutionResult(p)] *)
  load_result : string -> result ExecutionResult;
  (** [Path(p).parent.mkdir(parents=True, exist_ok=True)] *)
  mkdir_parent : string -> result unit;
  (** [Path(p).write_text(json.dumps(d, ensure_ascii=False, indent=2),
      encoding="utf-8")] *)
  write_json : string -> dict -> result unit
}.

Definition patterns : list string :=
  [ "%Y%m%d %H:%M:%S.%f";
    "%Y%m%d %H:%M:%S";
    "%Y-%m-%d %H:%M:%S.%f";
    "%Y-%m-%d %H:%M:%S" ].

(** The body of the [try] (line 48): parse, then convert.  A [ValueError]
    of either is what [except ValueError] catches. *)
Definition try_pattern `{Platform} (value pattern : string) : option Z :=
  match strptime value pattern with
  | Some dt => timestamp_ms dt
  | None => None
  end.

(** The [for pattern in patterns] loop: the first pattern whose [try] body
    succeeds returns, a [ValueError] goes on to the next pattern. *)
Fixpoint try_patterns `{Platform} (value : string) (ps : list string)
  : option Z :=
  match ps with
  | [] => None
  | pattern :: rest =>
      match try_pattern value pattern with
      | Some ms => Some ms
      | None => try_patterns value rest
      end
  end.

Definition parse_time_ms `{Platform} (value : option string) : option Z :=
  match value with
  | None => None
  | Some v => if PyStr.truthy v then try_patterns v patterns else None
  end.

(** ** [DocStepVisitor] *)

Definition DOC_KEYWORDS : list string := ["Doc Web Step"; "Doc Desktop Step"].

Definition in_doc_keywords (name : string) : bool :=
  existsb (String.eqb name) DOC_KEYWORDS.

Definition PASS : string := "PASS".

Record DocStepVisitor : Type := mkVisitor {
  output_dir : string;
  steps : list dict;
  counter : nat
}.

Definition new_visitor (dir : string) : DocStepVisitor :=
  {| output_dir := dir; steps := []; counter := 0 |}.

(** The guard of [end_keyword], negated: the invocations that get a step. *)
Definition is_doc_step (keyword : Keyword) : bool :=
  (String.eqb (status keyword) PASS && in_doc_keywords (kwname keyword))%bool.

(** [f"step-{n}"] *)
Definition fallback_id (n : nat) : string := "step-" ++ PyStr.of_nat n.

Definition opt_truthy (a : option string) : bool :=
  match a with
  | Some s => PyStr.truthy s
  | None => false
  end.

(** [args[i] if len(args) > i and args[i] else default] *)
Definition arg_or (a : list string) (i : nat) (default : string) : string :=
  match nth_error a i with
  | Some s => if PyStr.truthy s then s else default
  | None => default
  end.

(** The body of [end_keyword] after the guard, with the counter already
    incremented to [n]. *)
Definition build_step `{Platform} (dir : string) (n : nat) (keyword : Keyword)
  : dict :=
  let a := args keyword in
  let step_id := arg_or a 0 (fallback_id n) in
  let title := arg_or a 1 step_id in
  let description := nth 2 a "" in
  let image_path := path_join (path_join dir "screenshots") (step_id ++ ".png") in
  let start_ms := parse_time_ms (starttime keyword) in
  let elapsed_ms :=
    match elapsedtime keyword with
    | Some e => e
    | None => 0%Z
    end in
  let end_ms := option_map (fun s => (s + elapsed_ms)%Z) start_ms in
  let step : dict :=
    [ ("id", VStr step_id); ("title", VStr title);
      ("imagePath", VStr image_path) ] in
  let step :=
    if PyStr.truthy description
    then dict_set step "description" (VStr description) else step in
  let step :=
    match start_ms with
    | Some ms => dict_set step "startedAtMs" (VInt ms)
    | None => step
    end in
  match end_ms with
  | Some ms => dict_set step "endedAtMs" (VInt ms)
  | None => step
  end.

Definition end_keyword `{Platform} (self : DocStepVisitor) (keyword : Keyword)
  : DocStepVisitor :=
  if (negb (String.eqb (status keyword) PASS)
      || negb (in_doc_keywords (kwname keyword)))%bool
  then self
  else
    let n := S (counter self) in
    {| output_dir := output_dir self;
       steps := steps self ++ [build_step (output_dir self) n keyword];
       counter := n |}.

(** [result.visit(visitor)]: Robot Framework's visitor ends a keyword after
    it has visited the keywords of its body. *)
Fixpoint visit_keyword `{Platform} (self : DocStepVisitor) (node : KeywordNode)
  : DocStepVisitor :=
  match node with
  | Node keyword children =>
      end_keyword (fold_left visit_keyword children self) keyword
  end.

Definition visit `{Platform} (r : ExecutionResult) (self : DocStepVisitor)
  : DocStepVisitor :=
  fold_left visit_keyword (keywords r) self.

(** The invocations in the order in which [end_keyword] meets them. *)
Fixpoint encounter_order (node : KeywordNode) : list Keyword :=
  match node with
  | Node keyword children => flat_map encounter_order children ++ [keyword]
  end.

Definition invocations (r : ExecutionResult) : list Keyword :=
  flat_map encounter_order (keywords r).

(** The [k]-th matching invocation (from 0) gets the counter value [k + 1]. *)
Fixpoint number_steps `{Platform} (dir : string) (from : nat)
  (matching : list Keyword) : list dict :=
  match matching with
  | [] => []
  | keyword :: rest =>
      build_step dir (S from) keyword :: number_steps dir (S from) rest
  end.

(** ** [main] *)

Module Args.
(** The [argparse.Namespace] of [parse_args]: three required flags and
    three optional ones, [None] when the flag is not given. *)
Record t : Type := mk {
  output_xml : string;
  output_dir : string;
  artifacts_json : string;
  suite_id : option string;
  video_path : option string;
  manifest_path : option string
}.
End Args.

(** What a run that returns 0 has written: [json.dumps(artifacts)] at
    [written_to]. *)
Record Output : Type := mkOutput {
  written_to : string;
  artifacts : dict
}.

(** [x or default] for an optional string. *)
Definition or_else (x : option string) (default : string) : string :=
  match x with
  | Some s => if PyStr.truthy s then s else default
  | None => default
  end.

(** The dictionary of the manifest branch.  [manifest.get] is a method of
    [dict] only: any other JSON document raises. *)
Definition manifest_artifacts (scenario_id title : string) (manifest : value)
  : result dict :=
  match manifest with
  | VDict m =>
      Ok [ ("scenarioId", VStr scenario_id);
           ("title", VStr title);
           ("steps", dict_get m "steps" (VList []));
           ("videoPath", dict_get m "videoPath" VNone);
           ("rawVideoPath", dict_get m "rawVideoPath" VNone) ]
  | _ => Raise AttributeError
  end.

(** The dictionary of the extraction branch. *)
Definition extracted_artifacts (scenario_id title : string)
  (visitor : DocStepVisitor) : dict :=
  [ ("scenarioId", VStr scenario_id);
    ("title", VStr title);
    ("steps", VList (map VDict (steps visitor))) ].

(** The guard of the video back-fill (line 128):
    [args.video_path and Path(args.video_path).exists()
     and not artifacts.get("videoPath")]. *)
Definition backfill_applies `{Platform} (video_path : option string)
  (artifacts : dict) : bool :=
  match video_path with
  | Some p =>
      (PyStr.truthy p && path_exists p
       && negb (truthy (dict_get artifacts "videoPath" VNone)))%bool
  | None => false
  end.

(** The two assignments of lines 129 and 130. *)
Definition backfilled (p : string) (artifacts : dict) : dict :=
  dict_set (dict_set artifacts "videoPath" (VStr p)) "rawVideoPath" (VStr p).

Definition backfill_video `{Platform} (video_path : option string)
  (artifacts : dict) : dict :=
  match video_path with
  | Some p =>
      if backfill_applies video_path artifacts
      then backfilled p artifacts else artifacts
  | None => artifacts
  end.

Definition resolved_manifest_path `{Platform} (a : Args.t) : string :=
  match Args.manifest_path a with
  | Some p =>
      if PyStr.truthy p then resolve p
      else path_join (resolve (Args.output_dir a)) "unity-manifest.json"
  | None => path_join (resolve (Args.output_dir a)) "unity-manifest.json"
  end.

Definition title_of (r : ExecutionResult) : string :=
  or_else (suite_name r) "Robot Suite".

Definition scenario_id_of (a : Args.t) (r : ExecutionResult) : string :=
  or_else (Args.suite_id a) (sanitize_id (title_of r)).

(** Lines 109 to 126: the branch on the manifest file. *)
Definition branch_artifacts `{Platform} (a : Args.t) (r : ExecutionResult)
  : result dict :=
  let output_dir := resolve (Args.output_dir a) in
  let manifest_path := resolved_manifest_path a in
  let title := title_of r in
  let scenario_id := scenario_id_of a r in
  if path_exists manifest_path then
    text <- read_text manifest_path ;;
    match json_loads text with
    | Some manifest => manifest_artifacts scenario_id title manifest
    | None => Raise JSONDecodeError
    end
  else
    let visitor := visit r (new_visitor output_dir) in
    Ok (extracted_artifacts scenario_id title visitor).

(** Lines 132 to 137: make the directory, write the file, return 0. *)
Definition write_artifacts `{Platform} (a : Args.t) (artifacts : dict)
  : result Output :=
  let artifacts_json := resolve (Args.artifacts_json a) in
  _ <- mkdir_parent artifacts_json ;;
  _ <- write_json artifacts_json artifacts ;;
  Ok {| written_to := artifacts_json; artifacts := artifacts |}.

Definition main `{Platform} (a : Args.t) : result Output :=
  r <- load_result (resolve (Args.output_xml a)) ;;
  artifacts <- branch_artifacts a r ;;
  write_artifacts a (backfill_video (Args.video_path a) artifacts).

(** ** Variations of the input, to compare runs *)

(** The same platform, whose result files hold the invocations [ks]. *)
Definition with_keywords (P : Platform) (ks : list KeywordNode) : Platform :=
  {| strptime := @strptime P;
     timestamp_ms := @timestamp_ms P;
     json_loads := @json_loads P;
     resolve := @resolve P;
     path_join := @path_join P;
     path_exists := @path_exists P;
     read_text := @read_text P;
     load_result := fun p =>
       r <- @load_result P p ;;
       Ok {| suite_name := suite_name r; keywords := ks |};
     mkdir_parent := @mkdir_parent P;
     write_json := @write_json P |}.

(** The same command line with another [--suite-id]. *)
Definition with_suite_id (a : Args.t) (s : option string) : Args.t :=
  {| Args.output_xml := Args.output_xml a;
     Args.output_dir := Args.output_dir a;
     Args.artifacts_json := Args.artifacts_json a;
     Args.suite_id := s;
     Args.video_path := Args.video_path a;
     Args.manifest_path := Args.manifest_path a |}.

(** A usable [--video-path]: given, not empty, and the path exists. *)
Definition cli_video_usable `{Platform} (a : Args.t) : bool :=
  match Args.video_path a with
  | Some p => (PyStr.truthy p && path_exists p)%bool
  | None => false
  end.

(** ** A concrete platform, for running the model on examples *)

Module Sample.

Definition starts_with_slash (p : string) : bool :=
  match p with
  | String "/"%char _ => true
  | _ => false
  end.

Definition join (p q : string) : string :=
  if starts_with_slash q then q else p ++ "/" ++ q.

Definition absolute (p : string) : string := join "/work" p.

Fixpoint assoc {A : Type} (l : list (string * A)) (k : string) : option A :=
  match l with
  | [] => None
  | (k', a) :: r => if String.eqb k' k then Some a else assoc r k
  end.

(** Days from 1970-01-01 to a date of the proleptic Gregorian calendar. *)
Definition days_from_civil (y m d : Z) : Z :=
  let y' := (if m <=? 2 then y - 1 else y)%Z in
  let era := (y' / 400)%Z in
  let yoe := (y' - era * 400)%Z in
  let mp := ((m + 9) mod 12)%Z in
  let doy := ((153 * mp + 2) / 5 + d - 1)%Z in
  let doe := (yoe * 365 + yoe / 4 - yoe / 100 + doy)%Z in
  (era * 146097 + doe - 719468)%Z.

(** The conversion of a machine whose local zone is UTC.  [timestamp()]
    also looks one day before the date, which for the first day of year 1
    is in year 0: a [ValueError]. *)
Definition utc_ms (dt : datetime) : option Z :=
  if ((year dt =? 1) && (month dt =? 1) && (day dt =? 1))%Z then None
  else
    Some ((((days_from_civil (year dt) (month dt) (day dt) * 24 + hour dt)
            * 60 + minute dt) * 60 + second dt) * 1000
          + microsecond dt / 1000)%Z.

(** A world given by tables: the time stamps [strptime] accepts, the JSON
    texts [json.loads] accepts, the files and the result files. *)
Record World : Type := mkWorld {
  stamps : list (string * (string * datetime));
  documents : list (string * value);
  files : list (string * string);
  results : list (string * ExecutionResult)
}.

Definition world_strptime (w : World) (value pattern : string)
  : option datetime :=
  match assoc (stamps w) value with
  | Some (p, dt) => if String.eqb p pattern then Some dt else None
  | None => None
  end.

Definition world_read_text (w : World) (p : string) : result string :=
  match assoc (files w) p with
  | Some text => Ok text
  | None => Raise OSError
  end.

Definition world_load_result (w : World) (p : string)
  : result ExecutionResult :=
  match assoc (results w) p with
  | Some r => Ok r
  | None => Raise DataError
  end.

(** [p] lies below [f]. *)
Definition below (f p : string) : bool := String.prefix (f ++ "/") p.

(** The directory of [p] cannot be made below a path that is a file. *)
Definition world_mkdir_parent (w : World) (p : string) : result unit :=
  if (existsb (fun f => below (fst f) p) (files w)
      || existsb (fun f => below (fst f) p) (results w))%bool
  then Raise FileExistsError else Ok tt.

Definition platform (w : World) : Platform :=
  {| strptime := world_strptime w;
     timestamp_ms := utc_ms;
     json_loads := assoc (documents w);
     resolve := absolute;
     path_join := join;
     path_exists := fun p =>
       match assoc (files w) (absolute p) with
       | Some _ => true
       | None => false
       end;
     read_text := world_read_text w;
     load_result := world_load_result w;
     mkdir_parent := world_mkdir_parent w;
     write_json := fun _ _ => Ok tt |}.

Definition doc_step (st name : string) (a : list string)
  (start : option string) (elapsed : option Z) : Keyword :=
  {| status := st; kwname := name; args := a;
     starttime := start; elapsedtime := elapsed |}.

Definition kw_open : Keyword :=
  doc_step "PASS" "Doc Web Step" ["open"; "Open the page"; "Go to the start"]
           (Some "20240101 10:00:00.500") (Some 250%Z).
Definition kw_failed : Keyword :=
  doc_step "FAIL" "Doc Web Step" ["broken"] (Some "20240101 10:00:01.000")
           (Some 10%Z).
Definition kw_unnamed : Keyword :=
  doc_step "PASS" "Doc Desktop Step" [] (Some "2024-01-01 10:00:02") None.
Definition kw_log : Keyword :=
  doc_step "PASS" "Log" ["hello"] None (Some 1%Z).
Definition kw_empty_id : Keyword :=
  doc_step "PASS" "Doc Web Step" [""; ""] (Some "not-a-date") (Some 5%Z).
Definition kw_lowercase : Keyword :=
  doc_step "pass" "Doc Web Step" ["lower"] None None.

(** A test whose wrapper keyword runs four keywords, then one more. *)
Definition tree : list KeywordNode :=
  [ Node kw_log
      [ Node kw_open []; Node kw_failed []; Node kw_unnamed [];
        Node kw_log [] ];
    Node kw_empty_id [] ].

Definition suite : ExecutionResult :=
  {| suite_name := Some "My Test Suite!!"; keywords := tree |}.

Definition manifest_dict : dict :=
  [ ("steps", VList [VDict [("id", VStr "from-manifest")]]);
    ("videoPath", VStr "/rec/final.mp4");
    ("rawVideoPath", VStr "/rec/raw.mp4") ].

Definition manifest : value := VDict manifest_dict.

Definition the_stamps : list (string * (string * datetime)) :=
  [ ("20240101 10:00:00.500",
     ("%Y%m%d %H:%M:%S.%f", mkDatetime 2024 1 1 10 0 0 500000));
    ("20240101 10:00:01.000",
     ("%Y%m%d %H:%M:%S.%f", mkDatetime 2024 1 1 10 0 1 0));
    ("2024-01-01 10:00:02",
     ("%Y-%m-%d %H:%M:%S", mkDatetime 2024 1 1 10 0 2 0)) ].

Definition the_documents : list (string * value) :=
  [ ("{}", VDict []); ("[]", VList []); ("<manifest>", manifest) ].

Definition world_with (fs : list (string * string)) : World :=
  {| stamps := the_stamps;
     documents := the_documents;
     files := fs;
     results := [("/work/output.xml", suite)] |}.

(** No manifest, the video file is there. *)
Definition extraction_world : World :=
  world_with [("/work/video.mp4", "")].

(** A manifest with steps and video paths. *)
Definition manifest_world : World :=
  world_with [("/work/out/unity-manifest.json", "<manifest>");
              ("/work/video.mp4", "")].

(** A manifest that is the empty object. *)
Definition empty_manifest_world : World :=
  world_with [("/work/out/unity-manifest.json", "{}")].

(** A manifest file that is not JSON. *)
Definition broken_manifest_world : World :=
  world_with [("/work/out/unity-manifest.json", "{steps: ")].

(** What a run wrote; the empty output stands for a run that raised. *)
Definition output_of (run : result Output) : Output :=
  match run with
  | Ok out => out
  | Raise _ => {| written_to := ""; artifacts := [] |}
  end.

Definition cli (suite_id video : option string) : Args.t :=
  {| Args.output_xml := "output.xml";
     Args.output_dir := "out";
     Args.artifacts_json := "out/artifacts.json";
     Args.suite_id := suite_id;
     Args.video_path := video;
     Args.manifest_path := None |}.

End Sample.

(** ** Observations and further variations of the input *)

(** [list(d)]: the keys in insertion order. *)
Definition dict_keys (d : dict) : list string := map fst d.


(** A slug: not empty, lower-case letters, digits and hyphens only, no
    hyphen first or last, no two hyphens side by side. *)
Definition is_slug (s : string) : bool :=
  (PyStr.truthy s
   && PyStr.forallb is_slug_char s
   && negb (PyStr.starts_with PyStr.is_hyphen s)
   && negb (PyStr.ends_with PyStr.is_hyphen s)
   && negb (PyStr.has_double_hyphen s))%bool.

(** The same command line with another [--manifest-path]. *)
Definition with_manifest_path (a : Args.t) (p : option string) : Args.t :=
  {| Args.output_xml := Args.output_xml a;
     Args.output_dir := Args.output_dir a;
     Args.artifacts_json := Args.artifacts_json a;
     Args.suite_id := Args.suite_id a;
     Args.video_path := Args.video_path a;
     Args.manifest_path := p |}.

(** The same command line with another [--video-path]. *)
Definition with_video_path (a : Args.t) (p : option string) : Args.t :=
  {| Args.output_xml := Args.output_xml a;
     Args.output_dir := Args.output_dir a;
     Args.artifacts_json := Args.artifacts_json a;
     Args.suite_id := Args.suite_id a;
     Args.video_path := p;
     Args.manifest_path := Args.manifest_path a |}.

(** The ids of a list of steps. *)
Definition step_ids (l : list dict) : list (option value) :=
  map (fun step => dict_lookup step "id") l.

Module SampleMore.

(** A manifest that names the raw recording only. *)
Definition raw_only_dict : dict := [("rawVideoPath", VStr "/rec/raw.mp4")].

Definition raw_only_world : Sample.World :=
  {| Sample.stamps := Sample.the_stamps;
     Sample.documents := [("<raw-only>", VDict raw_only_dict)];
     Sample.files := [("/work/out/unity-manifest.json", "<raw-only>");
                      ("/work/video.mp4", "")];
     Sample.results := [("/work/output.xml", Sample.suite)] |}.

(** A manifest file that holds a JSON array. *)
Definition array_manifest_world : Sample.World :=
  Sample.world_with [("/work/out/unity-manifest.json", "[]")].

(** No result file at all. *)
Definition no_result_world : Sample.World :=
  {| Sample.stamps := Sample.the_stamps;
     Sample.documents := Sample.the_documents;
     Sample.files := [];
     Sample.results := [] |}.

(** A time stamp of the first day of year 1. *)
Definition year_one_world : Sample.World :=
  {| Sample.stamps :=
       [("00010101 00:00:00",
         ("%Y%m%d %H:%M:%S", mkDatetime 1 1 1 0 0 0 0))];
     Sample.documents := Sample.the_documents;
     Sample.files := [];
     Sample.results := [("/work/output.xml", Sample.suite)] |}.

(** A command line whose [--artifacts-json] lies below the result file. *)
Definition cli_below_result_file : Args.t :=
  {| Args.output_xml := "output.xml";
     Args.output_dir := "out";
     Args.artifacts_json := "output.xml/artifacts.json";
     Args.suite_id := None;
     Args.video_path := None;
     Args.manifest_path := None |}.

(** A suite without a name. *)
Definition unnamed_suite_world : Sample.World :=
  {| Sample.stamps := Sample.the_stamps;
     Sample.documents := Sample.the_documents;
     Sample.files := [];
     Sample.results :=
       [("/work/output.xml",
         {| suite_name := None; keywords := Sample.tree |})] |}.

End SampleMore.

(** * Properties *)

(** ** Characters *)

Ltac by_cases_on_char c :=
  destruct c as [[] [] [] [] [] [] [] []]; try reflexivity; try discriminate.

Lemma lower_char_not_upper (c : ascii) :
  PyStr.is_upper (PyStr.lower_char c) = false.
Proof. by_cases_on_char c. Qed.

Lemma lower_char_is_space (c : ascii) :
  PyStr.is_space (PyStr.lower_char c) = PyStr.is_space c.
Proof. by_cases_on_char c. Qed.

Lemma space_not_alnum (c : ascii) :
  PyStr.is_space c = true -> PyStr.is_alnum c = false.
Proof. by_cases_on_char c. Qed.

Lemma alnum_not_hyphen (c : ascii) :
  PyStr.is_alnum c = true -> PyStr.is_hyphen c = false.
Proof. by_cases_on_char c. Qed.

Lemma alnum_not_upper_slug_char (c : ascii) :
  PyStr.is_alnum c = true -> PyStr.is_upper c = false -> is_slug_char c = true.
Proof. by_cases_on_char c. Qed.

(** ** Stripping *)

Lemma rstrip_by_cons (p : ascii -> bool) (c : ascii) (s : string) :
  PyStr.rstrip_by p (String c s) =
  match PyStr.rstrip_by p s with
  | EmptyString => if p c then EmptyString else String c EmptyString
  | r' => String c r'
  end.
Proof. reflexivity. Qed.

Lemma rstrip_by_empty_forallb (p : ascii -> bool) (s : string) :
  PyStr.rstrip_by p s = EmptyString -> PyStr.forallb p s = true.
Proof.
  induction s as [|c r IH]; [reflexivity|].
  rewrite rstrip_by_cons.
  destruct (PyStr.rstrip_by p r); [|discriminate].
  destruct (p c) eqn:Hc; [|discriminate].
  intros _. simpl. rewrite Hc. now apply IH.
Qed.

Lemma rstrip_by_forallb (p q : ascii -> bool) (s : string) :
  PyStr.forallb q s = true -> PyStr.forallb q (PyStr.rstrip_by p s) = true.
Proof.
  induction s as [|c r IH]; [reflexivity|].
  simpl PyStr.forallb at 1. intros Hq.
  apply andb_true_iff in Hq as [Hc Hr]. specialize (IH Hr).
  rewrite rstrip_by_cons.
  destruct (PyStr.rstrip_by p r).
  - destruct (p c); [reflexivity|]. simpl. now rewrite Hc.
  - simpl in *. now rewrite Hc.
Qed.

Lemma rstrip_by_head (p : ascii -> bool) (s : string) :
  PyStr.rstrip_by p s <> EmptyString ->
  PyStr.head (PyStr.rstrip_by p s) = PyStr.head s.
Proof.
  destruct s as [|c r]; [reflexivity|].
  rewrite rstrip_by_cons.
  destruct (PyStr.rstrip_by p r); [|reflexivity].
  destruct (p c); [congruence|reflexivity].
Qed.

Lemma rstrip_by_ends_with (p : ascii -> bool) (s : string) :
  PyStr.ends_with p (PyStr.rstrip_by p s) = false.
Proof.
  unfold PyStr.ends_with.
  induction s as [|c r IH]; [reflexivity|].
  rewrite rstrip_by_cons.
  destruct (PyStr.rstrip_by p r) as [|d r'] eqn:E.
  - destruct (p c) eqn:Hc; simpl; [reflexivity|exact Hc].
  - exact IH.
Qed.

Lemma rstrip_by_no_double_hyphen (p : ascii -> bool) (s : string) :
  PyStr.has_double_hyphen s = false ->
  PyStr.has_double_hyphen (PyStr.rstrip_by p s) = false.
Proof.
  induction s as [|c r IH]; [reflexivity|].
  intros Hs. rewrite rstrip_by_cons.
  assert (Hhead : PyStr.rstrip_by p r <> EmptyString ->
                  PyStr.head (PyStr.rstrip_by p r) = PyStr.head r)
    by apply rstrip_by_head.
  destruct r as [|d r'].
  - simpl. destruct (p c); reflexivity.
  - simpl in Hs. apply orb_false_iff in Hs as [Hcd Hr].
    specialize (IH Hr).
    destruct (PyStr.rstrip_by p (String d r')) as [|e r''].
    + destruct (p c); reflexivity.
    + assert (He : Some e = Some d) by (apply Hhead; discriminate).
      injection He as ->.
      change (PyStr.has_double_hyphen (String c (String d r'')))
        with ((PyStr.is_hyphen c && PyStr.is_hyphen d
               || PyStr.has_double_hyphen (String d r''))%bool).
      now rewrite Hcd, IH.
Qed.

Lemma rstrip_by_keep (p : ascii -> bool) (c : ascii) (s : string) :
  p c = false ->
  PyStr.rstrip_by p (String c s) = String c (PyStr.rstrip_by p s).
Proof.
  intros Hc. rewrite rstrip_by_cons, Hc.
  now destruct (PyStr.rstrip_by p s).
Qed.

Lemma lstrip_by_head_kept (p : ascii -> bool) (s : string) :
  PyStr.starts_with p s = false -> PyStr.lstrip_by p s = s.
Proof.
  destruct s as [|c r]; [reflexivity|].
  unfold PyStr.starts_with. simpl. now intros ->.
Qed.

(** ** Lower-casing *)

Lemma ascii_lower_lstrip_space (s : string) :
  PyStr.ascii_lower (PyStr.lstrip_by PyStr.is_space s) =
  PyStr.lstrip_by PyStr.is_space (PyStr.ascii_lower s).
Proof.
  induction s as [|c r IH]; [reflexivity|].
  simpl. rewrite lower_char_is_space.
  destruct (PyStr.is_space c); [exact IH|reflexivity].
Qed.

Lemma ascii_lower_rstrip_space (s : string) :
  PyStr.ascii_lower (PyStr.rstrip_by PyStr.is_space s) =
  PyStr.rstrip_by PyStr.is_space (PyStr.ascii_lower s).
Proof.
  induction s as [|c r IH]; [reflexivity|].
  change (PyStr.ascii_lower (String c r))
    with (String (PyStr.lower_char c) (PyStr.ascii_lower r)).
  rewrite !rstrip_by_cons, <- IH, lower_char_is_space.
  destruct (PyStr.rstrip_by PyStr.is_space r).
  - simpl. destruct (PyStr.is_space c); reflexivity.
  - reflexivity.
Qed.

Lemma ascii_lower_not_upper (s : string) :
  PyStr.forallb (fun c => negb (PyStr.is_upper c)) (PyStr.ascii_lower s)
  = true.
Proof.
  induction s as [|c r IH]; [reflexivity|].
  simpl. now rewrite lower_char_not_upper, IH.
Qed.

Lemma space_is_ascii (c : ascii) :
  PyStr.is_space c = true -> PyStr.is_ascii c = true.
Proof. by_cases_on_char c. Qed.

Lemma dotted_capital_i_not_ascii (c d : ascii) :
  PyStr.is_dotted_capital_i c d = true ->
  PyStr.is_ascii c = false /\ PyStr.is_ascii d = false.
Proof.
  unfold PyStr.is_dotted_capital_i, PyStr.is_ascii.
  rewrite andb_true_iff, !N.eqb_eq. now intros [-> ->].
Qed.

Lemma kelvin_sign_not_ascii (c d e : ascii) :
  PyStr.is_kelvin_sign c d e = true ->
  PyStr.is_ascii c = false /\ PyStr.is_ascii d = false /\
  PyStr.is_ascii e = false.
Proof.
  unfold PyStr.is_kelvin_sign, PyStr.is_ascii.
  rewrite !andb_true_iff, !N.eqb_eq. now intros [[-> ->] ->].
Qed.

Lemma not_ascii_not_space (c : ascii) :
  PyStr.is_ascii c = false -> PyStr.is_space c = false.
Proof.
  intros Hc. destruct (PyStr.is_space c) eqn:Hs; [|reflexivity].
  apply space_is_ascii in Hs. congruence.
Qed.

Lemma ascii_not_dotted_capital_i (c d : ascii) :
  PyStr.is_ascii c = true \/ PyStr.is_ascii d = true ->
  PyStr.is_dotted_capital_i c d = false.
Proof.
  intros H. destruct (PyStr.is_dotted_capital_i c d) eqn:E; [|reflexivity].
  apply dotted_capital_i_not_ascii in E as [Hc Hd].
  destruct H; congruence.
Qed.

Lemma ascii_not_kelvin_sign (c d e : ascii) :
  PyStr.is_ascii c = true \/ PyStr.is_ascii d = true \/
  PyStr.is_ascii e = true ->
  PyStr.is_kelvin_sign c d e = false.
Proof.
  intros H. destruct (PyStr.is_kelvin_sign c d e) eqn:E; [|reflexivity].
  apply kelvin_sign_not_ascii in E as (Hc & Hd & He).
  destruct H as [H|[H|H]]; congruence.
Qed.

(** Without the bytes of a special code point in front, the first byte
    stays. *)
Lemma lower_special_cons (c : ascii) (r : string) :
  PyStr.starts_special (String c r) = false ->
  PyStr.lower_special (String c r) = String c (PyStr.lower_special r).
Proof.
  intros H. rewrite PyStr.lower_special_equation.
  destruct r as [|d r']; [reflexivity|].
  simpl in H. apply orb_false_iff in H as [Hd Hk]. rewrite Hd.
  destruct r' as [|e r'']; [reflexivity|]. now rewrite Hk.
Qed.

Lemma ascii_not_starts_special (c : ascii) (r : string) :
  PyStr.is_ascii c = true -> PyStr.starts_special (String c r) = false.
Proof.
  intros Hc. destruct r as [|d [|e r'']]; simpl; try reflexivity.
  - rewrite ascii_not_dotted_capital_i by now left. reflexivity.
  - rewrite ascii_not_dotted_capital_i by now left.
    rewrite ascii_not_kelvin_sign by now left. reflexivity.
Qed.

Lemma lower_special_cons_ascii (c : ascii) (r : string) :
  PyStr.is_ascii c = true ->
  PyStr.lower_special (String c r) = String c (PyStr.lower_special r).
Proof. intros Hc. now apply lower_special_cons, ascii_not_starts_special. Qed.

Lemma lower_special_head_not_space (c : ascii) (r : string) :
  PyStr.is_space c = false ->
  PyStr.starts_with PyStr.is_space (PyStr.lower_special (String c r)) = false.
Proof.
  intros Hc. rewrite PyStr.lower_special_equation.
  destruct r as [|d r']; [exact Hc|].
  destruct (PyStr.is_dotted_capital_i c d); [reflexivity|].
  destruct r' as [|e r'']; [exact Hc|].
  destruct (PyStr.is_kelvin_sign c d e); [reflexivity|exact Hc].
Qed.

Lemma lower_special_lstrip_space (s : string) :
  PyStr.lower_special (PyStr.lstrip_by PyStr.is_space s) =
  PyStr.lstrip_by PyStr.is_space (PyStr.lower_special s).
Proof.
  induction s as [|c r IH]; [reflexivity|].
  simpl PyStr.lstrip_by at 1.
  destruct (PyStr.is_space c) eqn:Hc.
  - rewrite (lower_special_cons_ascii c r (space_is_ascii c Hc)).
    simpl. now rewrite Hc.
  - symmetry. now apply lstrip_by_head_kept, lower_special_head_not_space.
Qed.

Lemma lower_special_not_empty (c : ascii) (r : string) :
  PyStr.lower_special (String c r) <> EmptyString.
Proof.
  rewrite PyStr.lower_special_equation.
  destruct r as [|d r']; [discriminate|].
  destruct (PyStr.is_dotted_capital_i c d); [discriminate|].
  destruct r' as [|e r'']; [discriminate|].
  destruct (PyStr.is_kelvin_sign c d e); discriminate.
Qed.

(** Stripping on the right keeps what the string begins with. *)
Lemma rstrip_by_starts_special (p : ascii -> bool) (c : ascii) (r : string) :
  PyStr.starts_special (String c r) = false ->
  PyStr.starts_special (String c (PyStr.rstrip_by p r)) = false.
Proof.
  destruct r as [|d r']; [now intros _|].
  intros H. simpl in H. apply orb_false_iff in H as [Hd Hk].
  rewrite rstrip_by_cons.
  pose proof (rstrip_by_head p r') as Hhead.
  destruct (PyStr.rstrip_by p r') as [|e z].
  - destruct (p d); simpl; [reflexivity|]. now rewrite Hd.
  - destruct r' as [|e' r''].
    + simpl in Hhead. specialize (Hhead ltac:(discriminate)). discriminate.
    + specialize (Hhead ltac:(discriminate)). simpl in Hhead.
      injection Hhead as ->. simpl. now rewrite Hd, Hk.
Qed.

Lemma lower_special_rstrip_plain (c : ascii) (r : string) :
  PyStr.starts_special (String c r) = false ->
  PyStr.lower_special (PyStr.rstrip_by PyStr.is_space r) =
    PyStr.rstrip_by PyStr.is_space (PyStr.lower_special r) ->
  PyStr.lower_special (PyStr.rstrip_by PyStr.is_space (String c r)) =
    PyStr.rstrip_by PyStr.is_space (String c (PyStr.lower_special r)).
Proof.
  intros Hplain IH.
  pose proof (rstrip_by_starts_special PyStr.is_space c r Hplain) as Hkept.
  rewrite !rstrip_by_cons, <- IH.
  destruct (PyStr.rstrip_by PyStr.is_space r) as [|d x].
  - simpl. destruct (PyStr.is_space c); reflexivity.
  - rewrite (lower_special_cons c (String d x) Hkept).
    pose proof (lower_special_not_empty d x) as Hne.
    destruct (PyStr.lower_special (String d x)); [now elim Hne|reflexivity].
Qed.

Lemma lower_special_rstrip_space (s : string) :
  PyStr.lower_special (PyStr.rstrip_by PyStr.is_space s) =
  PyStr.rstrip_by PyStr.is_space (PyStr.lower_special s).
Proof.
  functional induction (PyStr.lower_special s).
  - reflexivity.
  - match goal with
    | H : PyStr.is_dotted_capital_i ?x ?y = true |- _ =>
        destruct (dotted_capital_i_not_ascii _ _ H) as [Hx Hy];
        rewrite (rstrip_by_keep _ x) by (now apply not_ascii_not_space);
        rewrite (rstrip_by_keep _ y) by (now apply not_ascii_not_space);
        rewrite !rstrip_by_keep by reflexivity;
        rewrite PyStr.lower_special_equation, H, IHs0;
        reflexivity
    end.
  - match goal with
    | Hd : PyStr.is_dotted_capital_i ?x ?y = false,
      H : PyStr.is_kelvin_sign ?x ?y ?z = true |- _ =>
        destruct (kelvin_sign_not_ascii _ _ _ H) as (Hx & Hy & Hz);
        rewrite (rstrip_by_keep _ x) by (now apply not_ascii_not_space);
        rewrite (rstrip_by_keep _ y) by (now apply not_ascii_not_space);
        rewrite (rstrip_by_keep _ z) by (now apply not_ascii_not_space);
        rewrite (rstrip_by_keep _ "k"%char) by reflexivity;
        rewrite PyStr.lower_special_equation, Hd, H, IHs0;
        reflexivity
    end.
  - apply lower_special_rstrip_plain; [|exact IHs0].
    simpl. match goal with
           | Hd : PyStr.is_dotted_capital_i _ _ = false,
             Hk : PyStr.is_kelvin_sign _ _ _ = false |- _ =>
               now rewrite Hd, Hk
           end.
  - apply lower_special_rstrip_plain; [|exact IHs0].
    simpl. match goal with
           | Hd : PyStr.is_dotted_capital_i _ _ = false |- _ => now rewrite Hd
           end.
  - rewrite rstrip_by_cons. simpl. now destruct (PyStr.is_space c).
Qed.

Lemma lower_lstrip_space (s : string) :
  PyStr.lower (PyStr.lstrip_by PyStr.is_space s) =
  PyStr.lstrip_by PyStr.is_space (PyStr.lower s).
Proof.
  unfold PyStr.lower.
  now rewrite lower_special_lstrip_space, ascii_lower_lstrip_space.
Qed.

Lemma lower_rstrip_space (s : string) :
  PyStr.lower (PyStr.rstrip_by PyStr.is_space s) =
  PyStr.rstrip_by PyStr.is_space (PyStr.lower s).
Proof.
  unfold PyStr.lower.
  now rewrite lower_special_rstrip_space, ascii_lower_rstrip_space.
Qed.

Lemma lower_not_upper (s : string) :
  PyStr.forallb (fun c => negb (PyStr.is_upper c)) (PyStr.lower s) = true.
Proof. apply ascii_lower_not_upper. Qed.

(** ** The substitution of [sanitize_id] *)

Lemma re_sub_cons (b : bool) (c : ascii) (s : string) :
  re_sub_non_alnum b (String c s) =
  if PyStr.is_alnum c then String c (re_sub_non_alnum false s)
  else if b then re_sub_non_alnum true s
  else String "-"%char (re_sub_non_alnum true s).
Proof. reflexivity. Qed.

(** Stripping the hyphens on the left is scanning as if a run had begun. *)
Lemma lstrip_hyphen_re_sub (b : bool) (s : string) :
  PyStr.lstrip_by PyStr.is_hyphen (re_sub_non_alnum b s) =
  re_sub_non_alnum true s.
Proof.
  revert b. induction s as [|c r IH]; intros b; [reflexivity|].
  rewrite !re_sub_cons.
  destruct (PyStr.is_alnum c) eqn:Hc.
  - simpl. now rewrite (alnum_not_hyphen _ Hc).
  - destruct b; [apply IH|]. simpl. apply IH.
Qed.

Lemma re_sub_lstrip_space (s : string) :
  re_sub_non_alnum true (PyStr.lstrip_by PyStr.is_space s) =
  re_sub_non_alnum true s.
Proof.
  induction s as [|c r IH]; [reflexivity|].
  simpl PyStr.lstrip_by.
  destruct (PyStr.is_space c) eqn:Hc; [|reflexivity].
  rewrite IH, re_sub_cons. now rewrite (space_not_alnum _ Hc).
Qed.

Lemma re_sub_all_outside (b : bool) (s : string) :
  PyStr.forallb (fun c => negb (PyStr.is_alnum c)) s = true ->
  PyStr.rstrip_by PyStr.is_hyphen (re_sub_non_alnum b s) = EmptyString.
Proof.
  revert b. induction s as [|c r IH]; intros b; [reflexivity|].
  simpl PyStr.forallb. intros Hs.
  apply andb_true_iff in Hs as [Hc Hr].
  apply negb_true_iff in Hc. rewrite re_sub_cons, Hc.
  destruct b; [now apply IH|].
  rewrite rstrip_by_cons, (IH true Hr). reflexivity.
Qed.

Lemma forallb_space_outside (s : string) :
  PyStr.forallb PyStr.is_space s = true ->
  PyStr.forallb (fun c => negb (PyStr.is_alnum c)) s = true.
Proof.
  induction s as [|c r IH]; [reflexivity|].
  simpl. intros Hs. apply andb_true_iff in Hs as [Hc Hr].
  now rewrite (space_not_alnum _ Hc), IH.
Qed.

Lemma rstrip_hyphen_re_sub_rstrip_space (b : bool) (s : string) :
  PyStr.rstrip_by PyStr.is_hyphen
    (re_sub_non_alnum b (PyStr.rstrip_by PyStr.is_space s)) =
  PyStr.rstrip_by PyStr.is_hyphen (re_sub_non_alnum b s).
Proof.
  revert b. induction s as [|c r IH]; intros b; [reflexivity|].
  rewrite rstrip_by_cons.
  destruct (PyStr.rstrip_by PyStr.is_space r) as [|d r'] eqn:E.
  - pose proof (forallb_space_outside _ (rstrip_by_empty_forallb _ _ E)) as Hr.
    destruct (PyStr.is_space c) eqn:Hsp.
    + symmetry. apply re_sub_all_outside.
      simpl. now rewrite (space_not_alnum _ Hsp), Hr.
    + rewrite !re_sub_cons.
      destruct (PyStr.is_alnum c) eqn:Hc.
      * rewrite !rstrip_by_cons, (re_sub_all_outside false _ Hr). reflexivity.
      * destruct b.
        -- now rewrite (re_sub_all_outside true _ Hr).
        -- rewrite !rstrip_by_cons, (re_sub_all_outside true _ Hr). reflexivity.
  - rewrite (re_sub_cons b c (String d r')), (re_sub_cons b c r).
    destruct (PyStr.is_alnum c).
    + now rewrite !rstrip_by_cons, IH.
    + destruct b; [apply IH|]. now rewrite !rstrip_by_cons, IH.
Qed.

(** The white space [strip()] removes would have gone anyway. *)
Lemma strip_hyphen_re_sub_lower_strip_space (s : string) :
  PyStr.strip_by PyStr.is_hyphen
    (re_sub_non_alnum false (PyStr.lower (PyStr.strip_by PyStr.is_space s))) =
  PyStr.strip_by PyStr.is_hyphen (re_sub_non_alnum false (PyStr.lower s)).
Proof.
  unfold PyStr.strip_by.
  rewrite !lstrip_hyphen_re_sub, lower_rstrip_space, lower_lstrip_space.
  now rewrite rstrip_hyphen_re_sub_rstrip_space, re_sub_lstrip_space.
Qed.

Lemma re_sub_slug_chars (b : bool) (s : string) :
  PyStr.forallb (fun c => negb (PyStr.is_upper c)) s = true ->
  PyStr.forallb is_slug_char (re_sub_non_alnum b s) = true.
Proof.
  revert b. induction s as [|c r IH]; intros b; [reflexivity|].
  intros Hs. simpl in Hs.
  apply andb_true_iff in Hs as [Hc Hr]. apply negb_true_iff in Hc.
  rewrite re_sub_cons.
  destruct (PyStr.is_alnum c) eqn:Hal.
  - simpl. now rewrite (alnum_not_upper_slug_char _ Hal Hc), IH.
  - destruct b; [now apply IH|]. simpl. now apply IH.
Qed.

Lemma re_sub_in_run_no_leading_hyphen (s : string) :
  PyStr.starts_with PyStr.is_hyphen (re_sub_non_alnum true s) = false.
Proof.
  induction s as [|c r IH]; [reflexivity|].
  rewrite re_sub_cons.
  destruct (PyStr.is_alnum c) eqn:Hc; [|exact IH].
  exact (alnum_not_hyphen _ Hc).
Qed.

Lemma has_double_hyphen_cons (c d : ascii) (s : string) :
  PyStr.has_double_hyphen (String c (String d s)) =
  (PyStr.is_hyphen c && PyStr.is_hyphen d
   || PyStr.has_double_hyphen (String d s))%bool.
Proof. reflexivity. Qed.

Lemma re_sub_no_double_hyphen (b : bool) (s : string) :
  PyStr.has_double_hyphen (re_sub_non_alnum b s) = false.
Proof.
  revert b. induction s as [|c r IH]; intros b; [reflexivity|].
  rewrite re_sub_cons.
  destruct (PyStr.is_alnum c) eqn:Hc.
  - specialize (IH false).
    destruct (re_sub_non_alnum false r); [reflexivity|].
    now rewrite has_double_hyphen_cons, (alnum_not_hyphen _ Hc), IH.
  - destruct b; [apply IH|].
    pose proof (re_sub_in_run_no_leading_hyphen r) as Hh.
    specialize (IH true).
    destruct (re_sub_non_alnum true r); [reflexivity|].
    unfold PyStr.starts_with in Hh. simpl in Hh.
    rewrite has_double_hyphen_cons, Hh, IH. reflexivity.
Qed.

Lemma sanitize_id_unfold (value : string) :
  sanitize_id value =
  if PyStr.truthy (sanitize_cleaned_spec value)
  then sanitize_cleaned_spec value else fallback_slug.
Proof.
  unfold sanitize_id, sanitize_cleaned_spec.
  now rewrite strip_hyphen_re_sub_lower_strip_space.
Qed.

Lemma sanitize_cleaned_spec_shape (value : string) :
  let cleaned := sanitize_cleaned_spec value in
  PyStr.forallb is_slug_char cleaned = true /\
  PyStr.starts_with PyStr.is_hyphen cleaned = false /\
  PyStr.ends_with PyStr.is_hyphen cleaned = false /\
  PyStr.has_double_hyphen cleaned = false.
Proof.
  unfold sanitize_cleaned_spec, PyStr.strip_by.
  rewrite lstrip_hyphen_re_sub. cbv zeta.
  repeat split.
  - apply rstrip_by_forallb, re_sub_slug_chars, lower_not_upper.
  - unfold PyStr.starts_with.
    destruct (PyStr.rstrip_by PyStr.is_hyphen
                (re_sub_non_alnum true (PyStr.lower value))) eqn:E;
      [reflexivity|].
    rewrite <- E, rstrip_by_head by (rewrite E; discriminate).
    apply re_sub_in_run_no_leading_hyphen.
  - apply rstrip_by_ends_with.
  - apply rstrip_by_no_double_hyphen, re_sub_no_double_hyphen.
Qed.


(** ** Dictionaries *)

Lemma dict_lookup_set (d : dict) (k k' : string) (v : value) :
  dict_lookup (dict_set d k v) k' =
  if String.eqb k k' then Some v else dict_lookup d k'.
Proof.
  induction d as [|[k0 v0] d IH]; simpl.
  - reflexivity.
  - destruct (String.eqb k0 k) eqn:E0; simpl.
    + apply String.eqb_eq in E0. subst k0.
      destruct (String.eqb k k'); reflexivity.
    + rewrite IH. destruct (String.eqb k k') eqn:E; [|reflexivity].
      apply String.eqb_eq in E. subst k'. now rewrite E0.
Qed.

Section Properties.

Context `{P : Platform}.

(** ** [parse_time_ms] *)

Lemma try_pattern_some (v p : string) (ms : Z) :
  try_pattern v p = Some ms <->
  exists dt, strptime v p = Some dt /\ timestamp_ms dt = Some ms.
Proof.
  unfold try_pattern. destruct (strptime v p) as [dt|].
  - split; [intros H; now exists dt|]. now intros (dt' & [= <-] & H).
  - split; [discriminate|]. now intros (dt' & [=] & _).
Qed.

Lemma try_pattern_none (v p : string) :
  try_pattern v p = None <->
  strptime v p = None \/
  exists dt, strptime v p = Some dt /\ timestamp_ms dt = None.
Proof.
  unfold try_pattern. destruct (strptime v p) as [dt|].
  - split.
    + intros H. right. now exists dt.
    + intros [[=]|(dt' & [= <-] & H)]. exact H.
  - split; [now left|reflexivity].
Qed.

Lemma try_patterns_none (v : string) (ps : list string) :
  Forall (fun p => try_pattern v p = None) ps -> try_patterns v ps = None.
Proof.
  induction 1 as [|p ps Hp _ IH]; simpl; [reflexivity|].
  now rewrite Hp.
Qed.

Lemma try_patterns_first (v : string) (before after : list string)
  (pattern : string) (ms : Z) :
  Forall (fun p => try_pattern v p = None) before ->
  try_pattern v pattern = Some ms ->
  try_patterns v (before ++ pattern :: after) = Some ms.
Proof.
  intros Hb Hp. induction Hb as [|p ps Hfail _ IH]; simpl.
  - now rewrite Hp.
  - now rewrite Hfail.
Qed.

Lemma try_patterns_inv (v : string) (ps : list string) :
  match try_patterns v ps with
  | Some ms =>
      exists before pattern after,
        ps = before ++ pattern :: after /\
        Forall (fun p => try_pattern v p = None) before /\
        try_pattern v pattern = Some ms
  | None => Forall (fun p => try_pattern v p = None) ps
  end.
Proof.
  induction ps as [|p ps IH]; simpl; [constructor|].
  destruct (try_pattern v p) as [ms|] eqn:Hp.
  - exists [], p, ps. repeat split; [constructor|assumption].
  - destruct (try_patterns v ps) as [ms|].
    + destruct IH as (before & pattern & after & -> & Hb & Hpat).
      exists (p :: before), pattern, after.
      repeat split; [now constructor|assumption].
    + now constructor.
Qed.

(** C7, as the code has it.  The parser tries four formats in a fixed
    order: the [YYYYMMDD] date with and then without fractional seconds,
    then the [YYYY-MM-DD] date with and then without them.  One [try] holds
    both the parse and the conversion to epoch milliseconds, so a format
    counts when the text parses with it and the parsed date converts; a
    [ValueError] of the conversion sends the loop on to the next format like
    one of the parse.  The parser returns the conversion of the first format
    that counts.  It returns [None] (a value, never an exception) when the
    input is absent, when it is empty, and when no format counts; and in
    these three cases only. *)
Theorem parse_time_ms_first_converting_format :
  patterns = [ "%Y%m%d %H:%M:%S.%f"; "%Y%m%d %H:%M:%S";
               "%Y-%m-%d %H:%M:%S.%f"; "%Y-%m-%d %H:%M:%S" ] /\
  (forall v p ms,
      try_pattern v p = Some ms <->
      exists dt, strptime v p = Some dt /\ timestamp_ms dt = Some ms) /\
  (forall v p,
      try_pattern v p = None <->
      strptime v p = None \/
      exists dt, strptime v p = Some dt /\ timestamp_ms dt = None) /\
  parse_time_ms None = None /\
  parse_time_ms (Some "") = None /\
  (forall v,
      Forall (fun p => try_pattern v p = None) patterns ->
      parse_time_ms (Some v) = None) /\
  (forall v before pattern after ms,
      PyStr.truthy v = true ->
      patterns = before ++ pattern :: after ->
      Forall (fun p => try_pattern v p = None) before ->
      try_pattern v pattern = Some ms ->
      parse_time_ms (Some v) = Some ms) /\
  (forall value,
      parse_time_ms value = None ->
      value = None \/ value = Some "" \/
      exists v, value = Some v /\
                Forall (fun p => try_pattern v p = None) patterns).
Proof.
  split; [reflexivity|].
  split; [exact try_pattern_some|].
  split; [exact try_pattern_none|].
  split; [reflexivity|]. split; [reflexivity|].
  split; [|split].
  - intros v Hall. unfold parse_time_ms.
    destruct (PyStr.truthy v); [now apply try_patterns_none|reflexivity].
  - intros v before pattern after ms Hv Hpat Hb Hp.
    unfold parse_time_ms. rewrite Hv, Hpat.
    now apply try_patterns_first.
  - intros [v|] Hnone; [|now left]. right.
    destruct v as [|c v]; [now left|right].
    exists (String c v). split; [reflexivity|].
    unfold parse_time_ms in Hnone. simpl PyStr.truthy in Hnone.
    pose proof (try_patterns_inv (String c v) patterns) as Hinv.
    now rewrite Hnone in Hinv.
Qed.

(** ** The traversal *)

Lemma KeywordNode_forall_ind (Q : KeywordNode -> Prop) :
  (forall keyword children, Forall Q children -> Q (Node keyword children)) ->
  forall node, Q node.
Proof.
  intros HNode. fix IH 1. intros [keyword children].
  apply HNode.
  induction children as [|child rest IHrest]; constructor.
  - apply IH.
  - exact IHrest.
Qed.

Lemma end_keyword_eq (self : DocStepVisitor) (keyword : Keyword) :
  end_keyword self keyword =
  if is_doc_step keyword then
    {| output_dir := output_dir self;
       steps := steps self
                ++ [build_step (output_dir self) (S (counter self)) keyword];
       counter := S (counter self) |}
  else self.
Proof.
  unfold end_keyword, is_doc_step.
  destruct (String.eqb (status keyword) PASS);
    destruct (in_doc_keywords (kwname keyword)); reflexivity.
Qed.

Lemma is_doc_step_iff (keyword : Keyword) :
  is_doc_step keyword = true <->
  status keyword = "PASS" /\
  In (kwname keyword) ["Doc Web Step"; "Doc Desktop Step"].
Proof.
  unfold is_doc_step, in_doc_keywords, PASS.
  rewrite andb_true_iff, String.eqb_eq, existsb_exists.
  split; intros [Hs Hn]; split; try assumption.
  - destruct Hn as (name & Hin & Heq).
    apply String.eqb_eq in Heq. now subst name.
  - exists (kwname keyword). split; [assumption|apply String.eqb_refl].
Qed.

Lemma fold_end_keyword (ks : list Keyword) (self : DocStepVisitor) :
  fold_left end_keyword ks self =
  {| output_dir := output_dir self;
     steps := steps self
              ++ number_steps (output_dir self) (counter self)
                   (filter is_doc_step ks);
     counter := counter self + List.length (filter is_doc_step ks) |}.
Proof.
  revert self. induction ks as [|keyword ks IH]; intros self; simpl.
  - destruct self. simpl. now rewrite app_nil_r, Nat.add_0_r.
  - rewrite IH, end_keyword_eq.
    destruct (is_doc_step keyword); simpl; [|reflexivity].
    now rewrite <- app_assoc, Nat.add_succ_r.
Qed.

Lemma visit_keyword_encounter (node : KeywordNode) :
  forall self,
    visit_keyword self node = fold_left end_keyword (encounter_order node) self.
Proof.
  induction node as [keyword children IH] using KeywordNode_forall_ind.
  intros self. simpl. rewrite fold_left_app. simpl. f_equal.
  revert self. induction IH as [|child rest Hchild _ IHrest]; intros self.
  - reflexivity.
  - simpl. now rewrite fold_left_app, Hchild, IHrest.
Qed.

Lemma visit_encounter (nodes : list KeywordNode) (self : DocStepVisitor) :
  fold_left visit_keyword nodes self =
  fold_left end_keyword (flat_map encounter_order nodes) self.
Proof.
  revert self. induction nodes as [|node rest IH]; intros self.
  - reflexivity.
  - simpl. now rewrite fold_left_app, visit_keyword_encounter, IH.
Qed.

(** The whole pass: one step for each matching invocation, in the order of
    encounter, numbered from 1. *)
Lemma visit_new_visitor (dir : string) (r : ExecutionResult) :
  visit r (new_visitor dir) =
  {| output_dir := dir;
     steps := number_steps dir 0 (filter is_doc_step (invocations r));
     counter := List.length (filter is_doc_step (invocations r)) |}.
Proof.
  unfold visit, invocations. now rewrite visit_encounter, fold_end_keyword.
Qed.

Lemma number_steps_nth (dir : string) (ms : list Keyword) :
  forall from k keyword,
    nth_error ms k = Some keyword ->
    nth_error (number_steps dir from ms) k =
    Some (build_step dir (S (from + k)) keyword).
Proof.
  induction ms as [|m ms IH]; intros from [|k] keyword H; try discriminate.
  - simpl in *. injection H as ->. now rewrite Nat.add_0_r.
  - simpl in *. rewrite (IH (S from) k keyword H).
    now rewrite Nat.add_succ_r.
Qed.

Lemma number_steps_in (dir : string) (ms : list Keyword) :
  forall from step,
    In step (number_steps dir from ms) ->
    exists n keyword, In keyword ms /\ step = build_step dir n keyword.
Proof.
  induction ms as [|m ms IH]; intros from step; simpl; [tauto|].
  intros [<-|Hin].
  - exists (S from), m. auto.
  - destruct (IH _ _ Hin) as (n & keyword & Hk & ->).
    exists n, keyword. auto.
Qed.

Lemma number_steps_length (dir : string) (ms : list Keyword) :
  forall from, List.length (number_steps dir from ms) = List.length ms.
Proof.
  induction ms as [|m ms IH]; intros from; simpl; [reflexivity|].
  now rewrite IH.
Qed.

(** ** The step record *)

Ltac build_step_cases keyword :=
  unfold build_step;
  destruct (PyStr.truthy (nth 2 (args keyword) ""));
  destruct (parse_time_ms (starttime keyword)); reflexivity.

Lemma build_step_id (dir : string) (n : nat) (keyword : Keyword) :
  dict_lookup (build_step dir n keyword) "id" =
  Some (VStr (arg_or (args keyword) 0 (fallback_id n))).
Proof. build_step_cases keyword. Qed.

Lemma build_step_started (dir : string) (n : nat) (keyword : Keyword) :
  dict_lookup (build_step dir n keyword) "startedAtMs" =
  option_map VInt (parse_time_ms (starttime keyword)).
Proof. build_step_cases keyword. Qed.

Lemma build_step_ended (dir : string) (n : nat) (keyword : Keyword) :
  dict_lookup (build_step dir n keyword) "endedAtMs" =
  option_map
    (fun start_ms =>
       VInt (start_ms + match elapsedtime keyword with
                        | Some e => e
                        | None => 0
                        end)%Z)
    (parse_time_ms (starttime keyword)).
Proof. build_step_cases keyword. Qed.

(** ** The claims on the extraction *)

(** C2. The counter of a new visitor is zero.  [end_keyword] adds one to it
    for a matching invocation (status PASS, name among the documentation
    keywords), whatever its arguments are and so whether or not the
    fallback id is used, and leaves it alone for any other invocation.
    After the pass the counter is the number of matching invocations, and
    the [k]-th matching invocation (from 0, in the order of encounter) has
    the step at position [k], whose id is its first argument or, when that
    is absent or empty, [step-<k+1>]. *)
Theorem counter_numbers_matching_invocations
  (dir : string) (r : ExecutionResult) (k : nat) (keyword : Keyword) :
  nth_error (filter is_doc_step (invocations r)) k = Some keyword ->
  counter (new_visitor dir) = 0 /\
  (forall self kw,
      counter (end_keyword self kw) =
      if is_doc_step kw then S (counter self) else counter self) /\
  counter (visit r (new_visitor dir)) =
    List.length (filter is_doc_step (invocations r)) /\
  exists step,
    nth_error (steps (visit r (new_visitor dir))) k = Some step /\
    dict_lookup step "id" =
      Some (VStr (arg_or (args keyword) 0 ("step-" ++ PyStr.of_nat (S k)))) /\
    (opt_truthy (nth_error (args keyword) 0) = false ->
     dict_lookup step "id" = Some (VStr ("step-" ++ PyStr.of_nat (S k)))).
Proof.
  intros Hk. rewrite visit_new_visitor. cbn [steps counter new_visitor].
  split; [reflexivity|]. split.
  { intros self kw. rewrite end_keyword_eq. now destruct (is_doc_step kw). }
  split; [reflexivity|].
  exists (build_step dir (S k) keyword).
  split; [exact (number_steps_nth dir _ 0 k keyword Hk)|].
  rewrite build_step_id. split; [reflexivity|].
  intros Harg. unfold arg_or, fallback_id.
  destruct (nth_error (args keyword) 0) as [a0|]; [|reflexivity].
  cbn [opt_truthy] in Harg. now rewrite Harg.
Qed.

(** C5. [end_keyword] appends a step for an invocation if and only if the
    status of the invocation is PASS and its name is one of "Doc Web Step"
    and "Doc Desktop Step"; for any other invocation (failed, or another
    keyword) it leaves the visitor as it is.  Over a whole result tree the
    steps are those of the matching invocations, one each, in the order of
    encounter. *)
Theorem step_iff_pass_and_doc_keyword
  (self : DocStepVisitor) (keyword : Keyword)
  (dir : string) (r : ExecutionResult) :
  let matching :=
    status keyword = "PASS" /\
    In (kwname keyword) ["Doc Web Step"; "Doc Desktop Step"] in
  (matching <->
   exists step, steps (end_keyword self keyword) = steps self ++ [step]) /\
  (~ matching <-> end_keyword self keyword = self) /\
  steps (visit r (new_visitor dir)) =
    number_steps dir 0 (filter is_doc_step (invocations r)) /\
  List.length (steps (visit r (new_visitor dir))) =
    List.length (filter is_doc_step (invocations r)) /\
  (forall kw, In kw (filter is_doc_step (invocations r)) <->
              In kw (invocations r) /\ status kw = "PASS" /\
              In (kwname kw) ["Doc Web Step"; "Doc Desktop Step"]).
Proof.
  cbv zeta. rewrite <- is_doc_step_iff, end_keyword_eq.
  assert (Hgrow : forall (l : list dict) x, l ++ [x] <> l).
  { intros l x Heq. apply (f_equal (@List.length dict)) in Heq.
    rewrite length_app in Heq. simpl in Heq. lia. }
  split; [|split; [|split; [|split]]].
  - split.
    + intros ->. eexists. reflexivity.
    + destruct (is_doc_step keyword); [reflexivity|].
      intros (step & Hstep). symmetry in Hstep. now apply Hgrow in Hstep.
  - split.
    + intros Hnot.
      destruct (is_doc_step keyword); [now elim Hnot|reflexivity].
    + destruct (is_doc_step keyword); [|discriminate].
      intros Heq _. apply (f_equal steps) in Heq. simpl in Heq.
      now apply Hgrow in Heq.
  - now rewrite visit_new_visitor.
  - rewrite visit_new_visitor. apply number_steps_length.
  - intros kw. rewrite filter_In, is_doc_step_iff. reflexivity.
Qed.

(** C9. Every extracted step holds [endedAtMs] exactly when it holds
    [startedAtMs].  The step comes from an invocation of the tree;
    [startedAtMs] is its parsed start time, [endedAtMs] is that time plus
    the elapsed time, a missing elapsed time counting as 0.  So when the
    elapsed time is missing or zero, [endedAtMs] equals [startedAtMs]. *)
Theorem ended_present_iff_started
  (dir : string) (r : ExecutionResult) (step : dict) :
  In step (steps (visit r (new_visitor dir))) ->
  has_key step "endedAtMs" = has_key step "startedAtMs" /\
  exists n keyword,
    In keyword (invocations r) /\ is_doc_step keyword = true /\
    step = build_step dir n keyword /\
    dict_lookup step "startedAtMs" =
      option_map VInt (parse_time_ms (starttime keyword)) /\
    dict_lookup step "endedAtMs" =
      option_map
        (fun start_ms =>
           VInt (start_ms + match elapsedtime keyword with
                            | Some e => e
                            | None => 0
                            end)%Z)
        (parse_time_ms (starttime keyword)) /\
    (elapsedtime keyword = None \/ elapsedtime keyword = Some 0%Z ->
     dict_lookup step "endedAtMs" = dict_lookup step "startedAtMs").
Proof.
  rewrite visit_new_visitor. simpl. intros Hin.
  apply number_steps_in in Hin as (n & keyword & Hk & ->).
  apply filter_In in Hk as [Hk Hdoc].
  split.
  - unfold has_key. rewrite build_step_started, build_step_ended.
    now destruct (parse_time_ms (starttime keyword)).
  - exists n, keyword.
    rewrite build_step_started, build_step_ended.
    repeat split; try assumption.
    intros [-> | ->]; destruct (parse_time_ms (starttime keyword));
      simpl; try reflexivity; now rewrite Z.add_0_r.
Qed.

(** ** The claims on [main] *)

Lemma backfill_video_eq (video_path : option string) (base : dict) :
  backfill_video video_path base =
  if backfill_applies video_path base
  then backfilled (or_else video_path "") base else base.
Proof.
  destruct video_path as [p|]; [|reflexivity].
  unfold backfill_video, backfill_applies, or_else.
  destruct (PyStr.truthy p); reflexivity.
Qed.

Lemma backfill_video_other_key (video_path : option string) (base : dict)
  (k : string) :
  String.eqb "videoPath" k = false -> String.eqb "rawVideoPath" k = false ->
  dict_lookup (backfill_video video_path base) k = dict_lookup base k.
Proof.
  intros Hv Hr. rewrite backfill_video_eq.
  destruct (backfill_applies video_path base); [|reflexivity].
  unfold backfilled. now rewrite !dict_lookup_set, Hr, Hv.
Qed.

Lemma backfilled_lookup (p : string) (base : dict) :
  dict_lookup (backfilled p base) "videoPath" = Some (VStr p) /\
  dict_lookup (backfilled p base) "rawVideoPath" = Some (VStr p).
Proof. unfold backfilled. now rewrite !dict_lookup_set. Qed.

Lemma backfill_applies_iff (video_path : option string) (base : dict) :
  backfill_applies video_path base = true <->
  exists p, video_path = Some p /\ PyStr.truthy p = true /\
            path_exists p = true /\
            truthy (dict_get base "videoPath" VNone) = false.
Proof.
  unfold backfill_applies. split.
  - destruct video_path as [p|]; [|discriminate].
    rewrite !andb_true_iff, negb_true_iff. intros [[Hp He] Ht].
    now exists p.
  - intros (p & -> & Hp & He & Ht). now rewrite Hp, He, Ht.
Qed.

Lemma branch_artifacts_manifest (a : Args.t) (r : ExecutionResult)
  (text : string) (manifest : value) :
  path_exists (resolved_manifest_path a) = true ->
  read_text (resolved_manifest_path a) = Ok text ->
  json_loads text = Some manifest ->
  branch_artifacts a r =
  manifest_artifacts (scenario_id_of a r) (title_of r) manifest.
Proof.
  intros He Hr Hj. unfold branch_artifacts. rewrite He, Hr. simpl.
  now rewrite Hj.
Qed.

Lemma branch_artifacts_extraction (a : Args.t) (r : ExecutionResult) :
  path_exists (resolved_manifest_path a) = false ->
  branch_artifacts a r =
  Ok (extracted_artifacts (scenario_id_of a r) (title_of r)
        (visit r (new_visitor (resolve (Args.output_dir a))))).
Proof. intros He. unfold branch_artifacts. now rewrite He. Qed.

Lemma main_of_branch (a : Args.t) (r : ExecutionResult) :
  load_result (resolve (Args.output_xml a)) = Ok r ->
  main a =
  base <- branch_artifacts a r ;;
  write_artifacts a (backfill_video (Args.video_path a) base).
Proof. intros Hl. unfold main. now rewrite Hl. Qed.

(** A write that returns has made the directory and written the file. *)
Lemma write_artifacts_ok (a : Args.t) (final : dict) (out : Output) :
  write_artifacts a final = Ok out ->
  out = {| written_to := resolve (Args.artifacts_json a);
           artifacts := final |} /\
  mkdir_parent (resolve (Args.artifacts_json a)) = Ok tt /\
  write_json (resolve (Args.artifacts_json a)) final = Ok tt.
Proof.
  unfold write_artifacts.
  destruct (mkdir_parent (resolve (Args.artifacts_json a))) as [[]|];
    [|discriminate].
  cbn [bind].
  destruct (write_json (resolve (Args.artifacts_json a)) final) as [[]|];
    [|discriminate].
  cbn [bind]. now intros [= <-].
Qed.

(** A run that finds the manifest file and writes an artifact has read a
    JSON object from it. *)
Lemma main_manifest_inv (a : Args.t) (out : Output) :
  path_exists (resolved_manifest_path a) = true ->
  main a = Ok out ->
  exists r text m,
    load_result (resolve (Args.output_xml a)) = Ok r /\
    read_text (resolved_manifest_path a) = Ok text /\
    json_loads text = Some (VDict m) /\
    branch_artifacts a r =
      Ok [ ("scenarioId", VStr (scenario_id_of a r));
           ("title", VStr (title_of r));
           ("steps", dict_get m "steps" (VList []));
           ("videoPath", dict_get m "videoPath" VNone);
           ("rawVideoPath", dict_get m "rawVideoPath" VNone) ].
Proof.
  intros He Hm. unfold main in Hm.
  destruct (load_result (resolve (Args.output_xml a))) as [r|] eqn:Hl;
    [|discriminate].
  cbn [bind] in Hm.
  destruct (branch_artifacts a r) as [base|] eqn:Hbase; [|discriminate].
  unfold branch_artifacts in Hbase. rewrite He in Hbase.
  destruct (read_text (resolved_manifest_path a)) as [text|] eqn:Hr;
    [|discriminate].
  cbn [bind] in Hbase.
  destruct (json_loads text) as [manifest|] eqn:Hj; [|discriminate].
  destruct manifest as [| | | | | |m]; try discriminate.
  exists r, text, m. repeat split; try assumption.
  unfold branch_artifacts. rewrite He, Hr. cbn [bind]. now rewrite Hj.
Qed.

(** C1. When the resolved manifest file exists, the artifact the run writes
    has as [steps] the [steps] value of the manifest (a JSON object) as it
    is, or the empty list when the manifest has no [steps] key.  Nothing is
    extracted from the result tree: with any other keyword invocations in
    the result file, matching ones included, the run writes the same
    artifact, so the steps of the two sources are never mixed. *)
Theorem manifest_steps_verbatim (a : Args.t) (out : Output) :
  path_exists (resolved_manifest_path a) = true ->
  main a = Ok out ->
  exists text m,
    read_text (resolved_manifest_path a) = Ok text /\
    json_loads text = Some (VDict m) /\
    dict_lookup (artifacts out) "steps" =
      Some (match dict_lookup m "steps" with
            | Some manifest_steps => manifest_steps
            | None => VList []
            end) /\
    forall ks, @main (with_keywords P ks) a = Ok out.
Proof.
  intros He Hm.
  destruct (main_manifest_inv a out He Hm)
    as (r & text & m & Hl & Hr & Hj & Hbase).
  exists text, m. split; [assumption|]. split; [assumption|].
  rewrite (main_of_branch a r Hl), Hbase in Hm. cbn [bind] in Hm.
  pose proof Hm as Hwritten.
  apply write_artifacts_ok in Hm as (-> & _). split.
  - cbn [artifacts]. now rewrite backfill_video_other_key.
  - intros ks. unfold main. cbn [load_result with_keywords resolve].
    rewrite Hl. cbn [bind].
    unfold branch_artifacts, resolved_manifest_path in *.
    cbn [path_exists read_text json_loads with_keywords resolve path_join].
    rewrite He, Hr. cbn [bind]. rewrite Hj.
    cbn [manifest_artifacts bind]. exact Hwritten.
Qed.

Lemma main_ok_inv (a : Args.t) (r : ExecutionResult) (out : Output) :
  load_result (resolve (Args.output_xml a)) = Ok r ->
  main a = Ok out ->
  exists base,
    branch_artifacts a r = Ok base /\
    artifacts out = backfill_video (Args.video_path a) base.
Proof.
  intros Hl Hm. rewrite (main_of_branch a r Hl) in Hm.
  destruct (branch_artifacts a r) as [base|e]; [|discriminate].
  exists base. split; [reflexivity|].
  cbn [bind] in Hm. now apply write_artifacts_ok in Hm as (-> & _).
Qed.

Lemma truthy_string_nonempty (p : string) :
  PyStr.truthy p = true <-> p <> "".
Proof. destruct p; simpl; split; congruence. Qed.


(** C4, as the code has it.  In the manifest branch the written object
    always holds both keys, [videoPath] and [rawVideoPath].  Unless the
    back-fill from a usable [--video-path] applies (C3), their values are
    those of the manifest as they are when the manifest has the key, and
    [None], which [json.dumps] writes as null, when it has not. *)
Theorem manifest_video_keys_always_written
  (a : Args.t) (r : ExecutionResult) (text : string) (m : dict)
  (out : Output) :
  load_result (resolve (Args.output_xml a)) = Ok r ->
  path_exists (resolved_manifest_path a) = true ->
  read_text (resolved_manifest_path a) = Ok text ->
  json_loads text = Some (VDict m) ->
  main a = Ok out ->
  has_key (artifacts out) "videoPath" = true /\
  has_key (artifacts out) "rawVideoPath" = true /\
  ((cli_video_usable a
    && negb (truthy (dict_get m "videoPath" VNone)))%bool = false ->
   dict_lookup (artifacts out) "videoPath" =
     Some (match dict_lookup m "videoPath" with
           | Some v => v
           | None => VNone
           end) /\
   dict_lookup (artifacts out) "rawVideoPath" =
     Some (match dict_lookup m "rawVideoPath" with
           | Some v => v
           | None => VNone
           end)).
Proof.
  intros Hl He Hr Hj Hm.
  destruct (main_ok_inv a r out Hl Hm) as (base & Hbase & Hout).
  rewrite (branch_artifacts_manifest a r text (VDict m) He Hr Hj) in Hbase.
  injection Hbase as <-.
  rewrite Hout, backfill_video_eq. unfold has_key.
  destruct (backfill_applies (Args.video_path a) _) eqn:Happ.
  - destruct (backfilled_lookup (or_else (Args.video_path a) "")
                [ ("scenarioId", VStr (scenario_id_of a r));
                  ("title", VStr (title_of r));
                  ("steps", dict_get m "steps" (VList []));
                  ("videoPath", dict_get m "videoPath" VNone);
                  ("rawVideoPath", dict_get m "rawVideoPath" VNone) ])
      as [Hv Hraw].
    rewrite Hv, Hraw. split; [reflexivity|split; [reflexivity|]].
    intros Hoff. exfalso.
    unfold backfill_applies in Happ. unfold cli_video_usable in Hoff.
    destruct (Args.video_path a); [|discriminate].
    change (dict_get _ "videoPath" VNone)
      with (dict_get m "videoPath" VNone) in Happ.
    congruence.
  - split; [reflexivity|split; [reflexivity|]].
    intros _. split; reflexivity.
Qed.

(** C8. When the manifest file exists and its text is not JSON, the run
    raises and writes nothing, whatever the result tree holds: there is no
    fall back to the extraction.  When the result file itself loads, the
    error raised is the parse error of [json.loads]. *)
Theorem malformed_manifest_is_fatal (a : Args.t) (text : string) :
  path_exists (resolved_manifest_path a) = true ->
  read_text (resolved_manifest_path a) = Ok text ->
  json_loads text = None ->
  (exists e, main a = Raise e) /\
  (forall r,
      load_result (resolve (Args.output_xml a)) = Ok r ->
      branch_artifacts a r = Raise JSONDecodeError /\
      main a = Raise JSONDecodeError).
Proof.
  intros He Hr Hj.
  assert (Hbranch : forall r, branch_artifacts a r = Raise JSONDecodeError).
  { intros r. unfold branch_artifacts. rewrite He, Hr. cbn [bind].
    now rewrite Hj. }
  split.
  - destruct (load_result (resolve (Args.output_xml a))) as [r|e] eqn:Hl.
    + exists JSONDecodeError.
      now rewrite (main_of_branch a r Hl), Hbranch.
    + exists e. unfold main. now rewrite Hl.
  - intros r Hl. split; [apply Hbranch|].
    now rewrite (main_of_branch a r Hl), Hbranch.
Qed.

Lemma branch_artifacts_scenario_id (a : Args.t) (r : ExecutionResult)
  (base : dict) :
  branch_artifacts a r = Ok base ->
  dict_lookup base "scenarioId" = Some (VStr (scenario_id_of a r)).
Proof.
  unfold branch_artifacts.
  destruct (path_exists (resolved_manifest_path a)).
  - destruct (read_text (resolved_manifest_path a)) as [text|];
      [|discriminate].
    cbn [bind]. destruct (json_loads text) as [[]|]; try discriminate.
    cbn [manifest_artifacts]. now intros [= <-].
  - now intros [= <-].
Qed.

(** C10. A run with [--suite-id] given as the empty string does what the
    run without the flag does: the scenario id is the sanitized suite
    name, and that is what the written artifact holds as [scenarioId]. *)
Theorem empty_suite_id_like_absent
  (a : Args.t) (r : ExecutionResult) (out : Output) :
  load_result (resolve (Args.output_xml a)) = Ok r ->
  main (with_suite_id a (Some "")) = Ok out ->
  main (with_suite_id a (Some "")) = main (with_suite_id a None) /\
  scenario_id_of (with_suite_id a (Some "")) r = sanitize_id (title_of r) /\
  scenario_id_of (with_suite_id a None) r = sanitize_id (title_of r) /\
  dict_lookup (artifacts out) "scenarioId" =
    Some (VStr (sanitize_id (title_of r))).
Proof.
  intros Hl Hm. repeat split.
  destruct (main_ok_inv (with_suite_id a (Some "")) r out Hl Hm)
    as (base & Hbase & ->).
  rewrite backfill_video_other_key by reflexivity.
  now rewrite (branch_artifacts_scenario_id _ _ base Hbase).
Qed.

End Properties.

(** * The model on concrete runs *)

Example sanitize_id_my_test_suite :
  sanitize_id "My Test Suite!!" = "my-test-suite".
Proof. reflexivity. Qed.

Example sanitize_id_blank : sanitize_id "   " = "robot-suite".
Proof. reflexivity. Qed.

Example sanitize_id_empty : sanitize_id "" = "robot-suite".
Proof. reflexivity. Qed.

Example sanitize_id_edges : sanitize_id "--A__b--9 " = "a-b-9".
Proof. reflexivity. Qed.

(** The comparison with the status is that of strings: a status spelled in
    lower case is not the status PASS. *)
Example lowercase_status_no_step :
  is_doc_step Sample.kw_lowercase = false.
Proof. reflexivity. Qed.

(** Two passing documentation steps around a failed one, then a third: the
    failed one takes no number. *)
Example extraction_ids :
  map (fun step => dict_lookup step "id")
      (steps (@visit (Sample.platform Sample.extraction_world) Sample.suite
                     (new_visitor "/work/out"))) =
  [Some (VStr "open"); Some (VStr "step-2"); Some (VStr "step-3")].
Proof. reflexivity. Qed.

(** C1 on a run with a manifest and a tree that holds matching steps. *)
Lemma manifest_steps_verbatim_witness :
  @path_exists (Sample.platform Sample.manifest_world)
    "/work/out/unity-manifest.json" = true /\
  @main (Sample.platform Sample.manifest_world)
        (Sample.cli None (Some "video.mp4")) =
    Ok (Sample.output_of
          (@main (Sample.platform Sample.manifest_world)
                 (Sample.cli None (Some "video.mp4")))) /\
  dict_lookup
    (artifacts (Sample.output_of
       (@main (Sample.platform Sample.manifest_world)
              (Sample.cli None (Some "video.mp4")))))
    "steps" = Some (VList [VDict [("id", VStr "from-manifest")]]) /\
  forall ks,
    @main (with_keywords (Sample.platform Sample.manifest_world) ks)
          (Sample.cli None (Some "video.mp4")) =
    Ok (Sample.output_of
          (@main (Sample.platform Sample.manifest_world)
                 (Sample.cli None (Some "video.mp4")))).
Proof.
  split; [reflexivity|]. split; [reflexivity|]. split; [reflexivity|].
  destruct (@manifest_steps_verbatim (Sample.platform Sample.manifest_world)
              (Sample.cli None (Some "video.mp4"))
              (Sample.output_of
                 (@main (Sample.platform Sample.manifest_world)
                        (Sample.cli None (Some "video.mp4"))))
              eq_refl eq_refl)
    as (text & m & _ & _ & _ & Hsame).
  exact Hsame.
Defined.

(** C2 on the second matching invocation of the sample tree, which has no
    argument. *)
Lemma counter_numbers_matching_invocations_witness :
  nth_error (filter is_doc_step (invocations Sample.suite)) 1
    = Some Sample.kw_unnamed /\
  @counter (@visit (Sample.platform Sample.extraction_world) Sample.suite
                   (new_visitor "/work/out")) = 3 /\
  exists step,
    nth_error (steps (@visit (Sample.platform Sample.extraction_world)
                             Sample.suite (new_visitor "/work/out"))) 1
      = Some step /\
    dict_lookup step "id" = Some (VStr "step-2").
Proof.
  split; [reflexivity|].
  destruct (@counter_numbers_matching_invocations
              (Sample.platform Sample.extraction_world) "/work/out"
              Sample.suite 1 Sample.kw_unnamed eq_refl)
    as (_ & _ & Hcount & step & Hnth & _ & Hfallback).
  split; [exact Hcount|].
  exists step. split; [exact Hnth|]. apply Hfallback. reflexivity.
Defined.


(** C4, as claimed, fails on a manifest that is the empty object: it has
    neither key, and the run writes both. *)
Lemma manifest_without_video_keys_counterexample :
  @path_exists (Sample.platform Sample.empty_manifest_world)
    (@resolved_manifest_path (Sample.platform Sample.empty_manifest_world)
       (Sample.cli None None)) = true /\
  @read_text (Sample.platform Sample.empty_manifest_world)
    (@resolved_manifest_path (Sample.platform Sample.empty_manifest_world)
       (Sample.cli None None)) = Ok "{}" /\
  @json_loads (Sample.platform Sample.empty_manifest_world) "{}"
    = Some (VDict []) /\
  has_key [] "videoPath" = false /\
  has_key [] "rawVideoPath" = false /\
  @main (Sample.platform Sample.empty_manifest_world) (Sample.cli None None) =
    Ok {| written_to := "/work/out/artifacts.json";
          artifacts := [ ("scenarioId", VStr "my-test-suite");
                         ("title", VStr "My Test Suite!!");
                         ("steps", VList []);
                         ("videoPath", VNone);
                         ("rawVideoPath", VNone) ] |} /\
  ~ (has_key
       (artifacts (Sample.output_of
          (@main (Sample.platform Sample.empty_manifest_world)
                 (Sample.cli None None))))
       "videoPath" = false) /\
  ~ (has_key
       (artifacts (Sample.output_of
          (@main (Sample.platform Sample.empty_manifest_world)
                 (Sample.cli None None))))
       "rawVideoPath" = false).
Proof. repeat split; try reflexivity; discriminate. Qed.

(** C4 as amended, on the same run. *)
Lemma manifest_video_keys_always_written_witness :
  @main (Sample.platform Sample.empty_manifest_world) (Sample.cli None None) =
    Ok (Sample.output_of
          (@main (Sample.platform Sample.empty_manifest_world)
                 (Sample.cli None None))) /\
  dict_lookup
    (artifacts (Sample.output_of
       (@main (Sample.platform Sample.empty_manifest_world)
              (Sample.cli None None))))
    "videoPath" = Some VNone /\
  dict_lookup
    (artifacts (Sample.output_of
       (@main (Sample.platform Sample.empty_manifest_world)
              (Sample.cli None None))))
    "rawVideoPath" = Some VNone.
Proof.
  split; [reflexivity|].
  destruct (@manifest_video_keys_always_written
              (Sample.platform Sample.empty_manifest_world)
              (Sample.cli None None) Sample.suite "{}" []
              (Sample.output_of
                 (@main (Sample.platform Sample.empty_manifest_world)
                        (Sample.cli None None)))
              eq_refl eq_refl eq_refl eq_refl eq_refl)
    as (_ & _ & Hvalues).
  apply Hvalues. reflexivity.
Defined.

(** C5 on a passing documentation step and on a failed one. *)
Lemma step_iff_pass_and_doc_keyword_witness :
  (exists step,
      steps (@end_keyword (Sample.platform Sample.extraction_world)
               (new_visitor "/work/out") Sample.kw_open) = [] ++ [step]) /\
  @end_keyword (Sample.platform Sample.extraction_world)
    (new_visitor "/work/out") Sample.kw_failed = new_visitor "/work/out".
Proof.
  split.
  - apply (@step_iff_pass_and_doc_keyword
             (Sample.platform Sample.extraction_world)
             (new_visitor "/work/out") Sample.kw_open "/work/out"
             Sample.suite).
    split; [reflexivity|]. left. reflexivity.
  - apply (@step_iff_pass_and_doc_keyword
             (Sample.platform Sample.extraction_world)
             (new_visitor "/work/out") Sample.kw_failed "/work/out"
             Sample.suite).
    intros [Hstatus _]. discriminate Hstatus.
Defined.

(** C7, as claimed, fails on a time stamp of the first day of year 1: the
    second format parses it, the conversion of the parsed date raises
    [ValueError], and the parser returns [None]. *)
Lemma parse_time_ms_conversion_error_counterexample :
  In "%Y%m%d %H:%M:%S" patterns /\
  @strptime (Sample.platform SampleMore.year_one_world)
    "00010101 00:00:00" "%Y%m%d %H:%M:%S"
    = Some (mkDatetime 1 1 1 0 0 0 0) /\
  @timestamp_ms (Sample.platform SampleMore.year_one_world)
    (mkDatetime 1 1 1 0 0 0 0) = None /\
  @parse_time_ms (Sample.platform SampleMore.year_one_world)
    (Some "00010101 00:00:00") = None /\
  ~ (exists ms,
        @parse_time_ms (Sample.platform SampleMore.year_one_world)
          (Some "00010101 00:00:00") = Some ms).
Proof.
  repeat split; try reflexivity.
  - right. left. reflexivity.
  - intros (ms & H). discriminate H.
Qed.

(** C7 as amended, on a time stamp of the first format, on text of no
    format, and on the time stamp whose conversion raises. *)
Lemma parse_time_ms_first_converting_format_witness :
  @parse_time_ms (Sample.platform Sample.extraction_world)
    (Some "20240101 10:00:00.500") = Some 1704103200500%Z /\
  @parse_time_ms (Sample.platform Sample.extraction_world)
    (Some "not-a-date") = None /\
  @parse_time_ms (Sample.platform SampleMore.year_one_world)
    (Some "00010101 00:00:00") = None.
Proof.
  destruct (@parse_time_ms_first_converting_format
              (Sample.platform Sample.extraction_world))
    as (_ & _ & _ & _ & _ & Hnone & Hfirst & _).
  destruct (@parse_time_ms_first_converting_format
              (Sample.platform SampleMore.year_one_world))
    as (_ & _ & _ & _ & _ & Hnone1 & _).
  split; [|split].
  - apply (Hfirst "20240101 10:00:00.500" [] "%Y%m%d %H:%M:%S.%f"
             [ "%Y%m%d %H:%M:%S"; "%Y-%m-%d %H:%M:%S.%f";
               "%Y-%m-%d %H:%M:%S" ]);
      try reflexivity. constructor.
  - apply Hnone. repeat constructor.
  - apply Hnone1. repeat constructor.
Defined.

(** C8 on a manifest file cut short. *)
Lemma malformed_manifest_is_fatal_witness :
  @json_loads (Sample.platform Sample.broken_manifest_world) "{steps: "
    = None /\
  @main (Sample.platform Sample.broken_manifest_world) (Sample.cli None None)
    = Raise JSONDecodeError.
Proof.
  split; [reflexivity|].
  destruct (@malformed_manifest_is_fatal
              (Sample.platform Sample.broken_manifest_world)
              (Sample.cli None None) "{steps: " eq_refl eq_refl eq_refl)
    as (_ & Hloaded).
  apply (Hloaded Sample.suite). reflexivity.
Defined.

(** C9 on the step of the invocation that has a start time and no elapsed
    time. *)
Lemma ended_present_iff_started_witness :
  In (@build_step (Sample.platform Sample.extraction_world) "/work/out" 2
        Sample.kw_unnamed)
     (steps (@visit (Sample.platform Sample.extraction_world) Sample.suite
               (new_visitor "/work/out"))) /\
  has_key (@build_step (Sample.platform Sample.extraction_world) "/work/out" 2
             Sample.kw_unnamed) "endedAtMs" =
  has_key (@build_step (Sample.platform Sample.extraction_world) "/work/out" 2
             Sample.kw_unnamed) "startedAtMs".
Proof.
  assert (Hin : In (@build_step (Sample.platform Sample.extraction_world)
                      "/work/out" 2 Sample.kw_unnamed)
                   (steps (@visit (Sample.platform Sample.extraction_world)
                             Sample.suite (new_visitor "/work/out")))).
  { right. left. reflexivity. }
  split; [exact Hin|].
  apply (@ended_present_iff_started
           (Sample.platform Sample.extraction_world) "/work/out" Sample.suite
           _ Hin).
Defined.

(** C10 on a run with [--suite-id ""]. *)
Lemma empty_suite_id_like_absent_witness :
  @main (Sample.platform Sample.extraction_world) (Sample.cli (Some "") None) =
  @main (Sample.platform Sample.extraction_world) (Sample.cli None None) /\
  dict_lookup
    (artifacts (Sample.output_of
       (@main (Sample.platform Sample.extraction_world)
              (Sample.cli (Some "") None))))
    "scenarioId" = Some (VStr "my-test-suite").
Proof.
  destruct (@empty_suite_id_like_absent
              (Sample.platform Sample.extraction_world)
              (Sample.cli None None) Sample.suite
              (Sample.output_of
                 (@main (Sample.platform Sample.extraction_world)
                        (Sample.cli (Some "") None)))
              eq_refl eq_refl)
    as (Hsame & _ & _ & Hid).
  split; [exact Hsame|exact Hid].
Defined.

(** * Further properties *)

(** ** [sanitize_id] on slugs and on letter case *)

Lemma slug_char_lower (c : ascii) :
  is_slug_char c = true -> PyStr.lower_char c = c.
Proof. by_cases_on_char c. Qed.

Lemma slug_char_outside_is_hyphen (c : ascii) :
  is_slug_char c = true -> PyStr.is_alnum c = false -> c = "-"%char.
Proof. by_cases_on_char c. Qed.

Lemma slug_char_is_ascii (c : ascii) :
  is_slug_char c = true -> PyStr.is_ascii c = true.
Proof. by_cases_on_char c. Qed.

Lemma ascii_lower_of_slug_chars (s : string) :
  PyStr.forallb is_slug_char s = true -> PyStr.ascii_lower s = s.
Proof.
  induction s as [|c r IH]; [reflexivity|].
  simpl. intros H. apply andb_true_iff in H as [Hc Hr].
  now rewrite (slug_char_lower c Hc), IH.
Qed.

Lemma lower_special_of_slug_chars (s : string) :
  PyStr.forallb is_slug_char s = true -> PyStr.lower_special s = s.
Proof.
  induction s as [|c r IH]; [reflexivity|].
  intros H. simpl in H. apply andb_true_iff in H as [Hc Hr].
  rewrite (lower_special_cons_ascii c r (slug_char_is_ascii c Hc)).
  now rewrite IH.
Qed.

Lemma lower_of_slug_chars (s : string) :
  PyStr.forallb is_slug_char s = true -> PyStr.lower s = s.
Proof.
  intros H. unfold PyStr.lower.
  now rewrite (lower_special_of_slug_chars s H), ascii_lower_of_slug_chars.
Qed.

Lemma lower_char_not_ascii (c : ascii) :
  PyStr.is_ascii c = false -> PyStr.lower_char c = c.
Proof. by_cases_on_char c. Qed.

Lemma lower_char_is_ascii (c : ascii) :
  PyStr.is_ascii (PyStr.lower_char c) = PyStr.is_ascii c.
Proof. by_cases_on_char c. Qed.

Lemma dotted_capital_i_lower_char (c d : ascii) :
  PyStr.is_dotted_capital_i (PyStr.lower_char c) (PyStr.lower_char d) =
  PyStr.is_dotted_capital_i c d.
Proof.
  destruct (PyStr.is_ascii c) eqn:Hc.
  - rewrite !ascii_not_dotted_capital_i;
      [reflexivity|now left|left; now rewrite lower_char_is_ascii].
  - destruct (PyStr.is_ascii d) eqn:Hd.
    + rewrite !ascii_not_dotted_capital_i;
        [reflexivity|now right|right; now rewrite lower_char_is_ascii].
    + now rewrite !lower_char_not_ascii.
Qed.

Lemma kelvin_sign_lower_char (c d e : ascii) :
  PyStr.is_kelvin_sign (PyStr.lower_char c) (PyStr.lower_char d)
    (PyStr.lower_char e) =
  PyStr.is_kelvin_sign c d e.
Proof.
  destruct (PyStr.is_ascii c) eqn:Hc.
  - rewrite !ascii_not_kelvin_sign;
      [reflexivity|now left|left; now rewrite lower_char_is_ascii].
  - destruct (PyStr.is_ascii d) eqn:Hd.
    + rewrite !ascii_not_kelvin_sign;
        [reflexivity|right; now left
        |right; left; now rewrite lower_char_is_ascii].
    + destruct (PyStr.is_ascii e) eqn:He.
      * rewrite !ascii_not_kelvin_sign;
          [reflexivity|right; now right
          |right; right; now rewrite lower_char_is_ascii].
      * now rewrite !lower_char_not_ascii.
Qed.

(** The two passes of [lower] commute. *)
Lemma lower_special_ascii_lower (s : string) :
  PyStr.lower_special (PyStr.ascii_lower s) =
  PyStr.ascii_lower (PyStr.lower_special s).
Proof.
  functional induction (PyStr.lower_special s);
    try reflexivity;
    cbn [PyStr.ascii_lower];
    rewrite PyStr.lower_special_equation;
    rewrite ?dotted_capital_i_lower_char, ?kelvin_sign_lower_char;
    repeat match goal with
           | H : PyStr.is_dotted_capital_i _ _ = _ |- _ => rewrite H; clear H
           | H : PyStr.is_kelvin_sign _ _ _ = _ |- _ => rewrite H; clear H
           end;
    cbn [PyStr.ascii_lower] in IHs0; now rewrite IHs0.
Qed.

Lemma has_double_hyphen_tail (c : ascii) (s : string) :
  PyStr.has_double_hyphen (String c s) = false ->
  PyStr.has_double_hyphen s = false /\
  (PyStr.is_hyphen c = true -> PyStr.starts_with PyStr.is_hyphen s = false).
Proof.
  destruct s as [|d r]; [now split|].
  rewrite has_double_hyphen_cons. intros H.
  apply orb_false_iff in H as [Hcd Hr]. split; [assumption|].
  intros Hc. rewrite Hc in Hcd. exact Hcd.
Qed.

(** The substitution leaves a string of slug characters alone when its
    hyphens stand alone (and, inside a run, when it does not begin with
    one). *)
Lemma re_sub_of_slug_chars (s : string) :
  forall b : bool,
    PyStr.forallb is_slug_char s = true ->
    PyStr.has_double_hyphen s = false ->
    (if b then PyStr.starts_with PyStr.is_hyphen s else false) = false ->
    re_sub_non_alnum b s = s.
Proof.
  induction s as [|c r IH]; intros b Hall Hdbl Hb; [reflexivity|].
  simpl in Hall. apply andb_true_iff in Hall as [Hc Hr].
  destruct (has_double_hyphen_tail c r Hdbl) as [Hdr Hnext].
  rewrite re_sub_cons.
  destruct (PyStr.is_alnum c) eqn:Hal.
  - now rewrite (IH false Hr Hdr).
  - pose proof (slug_char_outside_is_hyphen c Hc Hal) as ->.
    destruct b; [discriminate Hb|].
    now rewrite (IH true Hr Hdr (Hnext eq_refl)).
Qed.

Lemma lstrip_by_not_starting (p : ascii -> bool) (s : string) :
  PyStr.starts_with p s = false -> PyStr.lstrip_by p s = s.
Proof.
  destruct s as [|c r]; [reflexivity|].
  unfold PyStr.starts_with. simpl. now intros ->.
Qed.

Lemma rstrip_by_not_ending (p : ascii -> bool) (s : string) :
  PyStr.ends_with p s = false -> PyStr.rstrip_by p s = s.
Proof.
  unfold PyStr.ends_with.
  induction s as [|c r IH]; [reflexivity|].
  rewrite rstrip_by_cons. destruct r as [|d r'].
  - simpl. now intros ->.
  - intros H. now rewrite (IH H).
Qed.

Lemma is_slug_parts (s : string) :
  is_slug s = true ->
  PyStr.truthy s = true /\ PyStr.forallb is_slug_char s = true /\
  PyStr.starts_with PyStr.is_hyphen s = false /\
  PyStr.ends_with PyStr.is_hyphen s = false /\
  PyStr.has_double_hyphen s = false.
Proof.
  unfold is_slug. rewrite !andb_true_iff, !negb_true_iff. tauto.
Qed.

Lemma sanitize_cleaned_spec_of_slug (s : string) :
  is_slug s = true -> sanitize_cleaned_spec s = s.
Proof.
  intros H. apply is_slug_parts in H as (_ & Hall & Hhd & Hlast & Hdbl).
  unfold sanitize_cleaned_spec, PyStr.strip_by.
  rewrite (lower_of_slug_chars s Hall).
  rewrite (re_sub_of_slug_chars s false Hall Hdbl eq_refl).
  now rewrite (lstrip_by_not_starting _ s Hhd), (rstrip_by_not_ending _ s Hlast).
Qed.

Lemma sanitize_id_of_slug_aux (s : string) :
  is_slug s = true -> sanitize_id s = s.
Proof.
  intros H. rewrite sanitize_id_unfold, (sanitize_cleaned_spec_of_slug s H).
  apply is_slug_parts in H as (Ht & _). now rewrite Ht.
Qed.

Lemma sanitize_id_slug_aux (value : string) :
  is_slug (sanitize_id value) = true.
Proof.
  rewrite sanitize_id_unfold.
  destruct (sanitize_cleaned_spec_shape value) as (Hall & Hhd & Hlast & Hdbl).
  destruct (PyStr.truthy (sanitize_cleaned_spec value)) eqn:Ht;
    [|reflexivity].
  unfold is_slug. now rewrite Ht, Hall, Hhd, Hlast, Hdbl.
Qed.

(** X1. A string that already is a slug (not empty, only lower-case ASCII
    letters, digits and single hyphens, none of them first or last) is
    returned as it is. *)
Theorem sanitize_id_fixes_slugs (s : string) :
  is_slug s = true -> sanitize_id s = s.
Proof. apply sanitize_id_of_slug_aux. Qed.

(** X2. Sanitizing twice is sanitizing once. *)
Theorem sanitize_id_idempotent (value : string) :
  sanitize_id (sanitize_id value) = sanitize_id value.
Proof. apply sanitize_id_of_slug_aux, sanitize_id_slug_aux. Qed.

(** X3. Two names that differ in the case of their ASCII letters only
    (byte for byte the same once the ASCII capitals are lower-cased) get the
    same id. *)
Theorem sanitize_id_ignores_case (s1 s2 : string) :
  PyStr.ascii_lower s1 = PyStr.ascii_lower s2 ->
  sanitize_id s1 = sanitize_id s2.
Proof.
  intros H. rewrite !sanitize_id_unfold.
  unfold sanitize_cleaned_spec, PyStr.lower.
  now rewrite <- !lower_special_ascii_lower, H.
Qed.

Lemma sanitize_id_fixes_slugs_witness :
  is_slug "my-test-suite-2" = true /\
  sanitize_id "my-test-suite-2" = "my-test-suite-2".
Proof.
  split; [reflexivity|].
  apply (sanitize_id_fixes_slugs "my-test-suite-2"). reflexivity.
Defined.

Lemma sanitize_id_ignores_case_witness :
  PyStr.ascii_lower "Login FLOW" = PyStr.ascii_lower "login flow" /\
  sanitize_id "Login FLOW" = sanitize_id "login flow".
Proof.
  split; [reflexivity|].
  apply (sanitize_id_ignores_case "Login FLOW" "login flow"). reflexivity.
Defined.

Section FurtherProperties.

Context `{P : Platform}.

(** ** The shape of a step *)

Ltac step_cases keyword :=
  unfold build_step, dict_keys, has_key;
  destruct (PyStr.truthy (nth 2 (args keyword) "")) eqn:?;
  destruct (parse_time_ms (starttime keyword)); reflexivity.

Lemma build_step_title (dir : string) (n : nat) (keyword : Keyword) :
  dict_lookup (build_step dir n keyword) "title" =
  Some (VStr (arg_or (args keyword) 1
                (arg_or (args keyword) 0 (fallback_id n)))).
Proof. step_cases keyword. Qed.

Lemma build_step_image (dir : string) (n : nat) (keyword : Keyword) :
  dict_lookup (build_step dir n keyword) "imagePath" =
  Some (VStr (path_join (path_join dir "screenshots")
                (arg_or (args keyword) 0 (fallback_id n) ++ ".png"))).
Proof. step_cases keyword. Qed.

Lemma build_step_description (dir : string) (n : nat) (keyword : Keyword) :
  dict_lookup (build_step dir n keyword) "description" =
  if PyStr.truthy (nth 2 (args keyword) "")
  then Some (VStr (nth 2 (args keyword) "")) else None.
Proof. step_cases keyword. Qed.

Lemma build_step_keys (dir : string) (n : nat) (keyword : Keyword) :
  dict_keys (build_step dir n keyword) =
  ["id"; "title"; "imagePath"]
  ++ (if has_key (build_step dir n keyword) "description"
      then ["description"] else [])
  ++ (if has_key (build_step dir n keyword) "startedAtMs"
      then ["startedAtMs"; "endedAtMs"] else []).
Proof. step_cases keyword. Qed.

Lemma fallback_id_truthy (n : nat) : PyStr.truthy (fallback_id n) = true.
Proof. reflexivity. Qed.

Lemma arg_or_truthy (a : list string) (i : nat) (default : string) :
  PyStr.truthy default = true -> PyStr.truthy (arg_or a i default) = true.
Proof.
  intros Hd. unfold arg_or.
  destruct (nth_error a i) as [s|]; [|exact Hd].
  destruct (PyStr.truthy s) eqn:Hs; [exact Hs|exact Hd].
Qed.

Lemma extracted_step_inv (dir : string) (r : ExecutionResult) (step : dict) :
  In step (steps (visit r (new_visitor dir))) ->
  exists n keyword,
    In keyword (invocations r) /\ is_doc_step keyword = true /\
    step = build_step dir n keyword.
Proof.
  rewrite visit_new_visitor. cbn [steps]. intros Hin.
  apply number_steps_in in Hin as (n & keyword & Hk & ->).
  apply filter_In in Hk as [Hk Hdoc].
  now exists n, keyword.
Qed.

(** X4. The keys of every extracted step are [id], [title], [imagePath],
    then [description] if the step has one, then [startedAtMs] and
    [endedAtMs] together if it has a start time: these keys, in this order,
    and no other. *)
Theorem extracted_step_keys
  (dir : string) (r : ExecutionResult) (step : dict) :
  In step (steps (visit r (new_visitor dir))) ->
  dict_keys step =
  ["id"; "title"; "imagePath"]
  ++ (if has_key step "description" then ["description"] else [])
  ++ (if has_key step "startedAtMs"
      then ["startedAtMs"; "endedAtMs"] else []).
Proof.
  intros Hin.
  apply extracted_step_inv in Hin as (n & keyword & _ & _ & ->).
  apply build_step_keys.
Qed.

(** X5. Every extracted step comes from an invocation of the tree; its [id]
    and its [title] are strings that are not empty, the title being the
    second argument or, when that is absent or empty, the id; [imagePath] is
    the output directory joined with [screenshots] and [<id>.png]; and
    [description] is the third argument, the key being left out when that
    argument is absent or empty. *)
Theorem extracted_step_texts
  (dir : string) (r : ExecutionResult) (step : dict) :
  In step (steps (visit r (new_visitor dir))) ->
  exists keyword id title,
    In keyword (invocations r) /\
    dict_lookup step "id" = Some (VStr id) /\
    PyStr.truthy id = true /\
    dict_lookup step "title" = Some (VStr title) /\
    PyStr.truthy title = true /\
    title = arg_or (args keyword) 1 id /\
    dict_lookup step "imagePath" =
      Some (VStr (path_join (path_join dir "screenshots") (id ++ ".png"))) /\
    dict_lookup step "description" =
      match nth_error (args keyword) 2 with
      | Some (String c d) => Some (VStr (String c d))
      | _ => None
      end.
Proof.
  intros Hin.
  apply extracted_step_inv in Hin as (n & keyword & Hk & _ & ->).
  exists keyword, (arg_or (args keyword) 0 (fallback_id n)),
    (arg_or (args keyword) 1 (arg_or (args keyword) 0 (fallback_id n))).
  rewrite build_step_id, build_step_title, build_step_image,
    build_step_description.
  assert (Hid : PyStr.truthy (arg_or (args keyword) 0 (fallback_id n)) = true)
    by apply arg_or_truthy, fallback_id_truthy.
  repeat split; try assumption.
  - now apply arg_or_truthy.
  - destruct (args keyword) as [|a0 [|a1 [|[|c d] rest]]]; reflexivity.
Qed.

(** ** The visitor only appends *)

(** X6. A pass over any keyword invocations, from any visitor, keeps the
    output directory and the steps the visitor already holds, appends to
    them, and adds to the counter the number of steps appended.  So the
    counter of a visitor that began new is the number of its steps. *)
Theorem visitor_only_appends
  (nodes : list KeywordNode) (self : DocStepVisitor)
  (dir : string) (r : ExecutionResult) :
  output_dir (fold_left visit_keyword nodes self) = output_dir self /\
  (exists added,
      steps (fold_left visit_keyword nodes self) = steps self ++ added /\
      counter (fold_left visit_keyword nodes self) =
        counter self + List.length added) /\
  counter (visit r (new_visitor dir)) =
    List.length (steps (visit r (new_visitor dir))).
Proof.
  rewrite visit_encounter, fold_end_keyword, visit_new_visitor.
  cbn [output_dir steps counter].
  split; [reflexivity|]. split.
  - eexists. split; [reflexivity|]. now rewrite number_steps_length.
  - now rewrite number_steps_length.
Qed.

(** ** Fallback ids *)

Lemma to_uint_not_nil (n : nat) : Nat.to_uint n <> Decimal.Nil.
Proof.
  intros H. pose proof (DecimalNat.Unsigned.of_to n) as Hn.
  rewrite H in Hn. simpl in Hn. subst n. discriminate H.
Qed.

Lemma of_nat_injective (n n' : nat) :
  PyStr.of_nat n = PyStr.of_nat n' -> n = n'.
Proof.
  unfold PyStr.of_nat. intros H.
  apply (f_equal NilZero.uint_of_string) in H.
  rewrite !NilZero.usu in H by apply to_uint_not_nil.
  injection H as H. now apply DecimalNat.Unsigned.to_uint_inj.
Qed.

Lemma fallback_id_injective (n n' : nat) :
  fallback_id n = fallback_id n' -> n = n'.
Proof.
  unfold fallback_id. simpl. intros H.
  injection H as H. now apply of_nat_injective.
Qed.

(** X7. Two different matching invocations that both lack a first argument
    (or have an empty one) get different ids: the synthesized ids
    [step-<n>] never repeat within a pass. *)
Theorem fallback_ids_distinct
  (dir : string) (r : ExecutionResult) (k k' : nat) (kw kw' : Keyword) :
  nth_error (filter is_doc_step (invocations r)) k = Some kw ->
  nth_error (filter is_doc_step (invocations r)) k' = Some kw' ->
  opt_truthy (nth_error (args kw) 0) = false ->
  opt_truthy (nth_error (args kw') 0) = false ->
  k <> k' ->
  nth_error (step_ids (steps (visit r (new_visitor dir)))) k <>
  nth_error (step_ids (steps (visit r (new_visitor dir)))) k'.
Proof.
  intros Hk Hk' Ha Ha' Hne.
  rewrite visit_new_visitor. cbn [steps]. unfold step_ids.
  rewrite !nth_error_map.
  rewrite (number_steps_nth dir _ 0 k kw Hk).
  rewrite (number_steps_nth dir _ 0 k' kw' Hk').
  cbn [option_map]. rewrite !build_step_id.
  assert (Hfb : forall a n,
             opt_truthy (nth_error a 0) = false ->
             arg_or a 0 (fallback_id n) = fallback_id n).
  { intros a n Hopt. unfold arg_or.
    destruct (nth_error a 0) as [a0|]; [|reflexivity].
    cbn [opt_truthy] in Hopt. now rewrite Hopt. }
  rewrite (Hfb _ _ Ha), (Hfb _ _ Ha'). intros Heq.
  cbn [Nat.add] in Heq.
  assert (Hid : fallback_id (S k) = fallback_id (S k')) by congruence.
  apply fallback_id_injective in Hid.
  apply Hne. now injection Hid.
Qed.

End FurtherProperties.

Section RunProperties.

Context `{P : Platform}.

(** ** Which runs fail, and how *)

Lemma main_ok_load (a : Args.t) (out : Output) :
  main a = Ok out ->
  exists r, load_result (resolve (Args.output_xml a)) = Ok r.
Proof.
  unfold main.
  destruct (load_result (resolve (Args.output_xml a))) as [r|];
    [|discriminate].
  intros _. now exists r.
Qed.




(** ** The written object *)

Lemma backfill_applies_extracted (a : Args.t) (r : ExecutionResult)
  (v : DocStepVisitor) :
  backfill_applies (Args.video_path a)
    (extracted_artifacts (scenario_id_of a r) (title_of r) v) =
  cli_video_usable a.
Proof.
  unfold backfill_applies, cli_video_usable.
  destruct (Args.video_path a) as [p|]; [|reflexivity].
  cbn. now rewrite andb_true_r.
Qed.

Lemma or_else_some_truthy (x : option string) (default p : string) :
  x = Some p -> PyStr.truthy p = true -> or_else x default = p.
Proof. intros -> Hp. unfold or_else. now rewrite Hp. Qed.

(** X9. The written object has the keys [scenarioId], [title], [steps],
    [videoPath], [rawVideoPath], in this order, when the manifest file
    exists or a usable [--video-path] was given; otherwise it has the keys
    [scenarioId], [title], [steps] and no video key at all. *)
Theorem artifact_keys (a : Args.t) (out : Output) :
  main a = Ok out ->
  dict_keys (artifacts out) =
  if (path_exists (resolved_manifest_path a) || cli_video_usable a)%bool
  then ["scenarioId"; "title"; "steps"; "videoPath"; "rawVideoPath"]
  else ["scenarioId"; "title"; "steps"].
Proof.
  intros Hm.
  destruct (path_exists (resolved_manifest_path a)) eqn:He; cbn [orb].
  - destruct (main_manifest_inv a out He Hm)
      as (r & text & m & Hl & Hr & Hj & Hbase).
    rewrite (main_of_branch a r Hl), Hbase in Hm. cbn [bind] in Hm.
    apply write_artifacts_ok in Hm as (-> & _).
    cbn [artifacts]. rewrite backfill_video_eq.
    destruct (backfill_applies (Args.video_path a) _); reflexivity.
  - destruct (main_ok_load a out Hm) as (r & Hl).
    rewrite (main_of_branch a r Hl), (branch_artifacts_extraction a r He)
      in Hm.
    cbn [bind] in Hm. apply write_artifacts_ok in Hm as (-> & _).
    cbn [artifacts].
    rewrite backfill_video_eq, backfill_applies_extracted.
    destruct (cli_video_usable a); reflexivity.
Qed.

Lemma branch_artifacts_title (a : Args.t) (r : ExecutionResult)
  (base : dict) :
  branch_artifacts a r = Ok base ->
  dict_lookup base "title" = Some (VStr (title_of r)).
Proof.
  unfold branch_artifacts.
  destruct (path_exists (resolved_manifest_path a)).
  - destruct (read_text (resolved_manifest_path a)) as [text|];
      [|discriminate].
    cbn [bind]. destruct (json_loads text) as [[]|]; try discriminate.
    cbn [manifest_artifacts]. now intros [= <-].
  - now intros [= <-].
Qed.

Lemma or_else_truthy (x : option string) (default : string) :
  PyStr.truthy default = true -> PyStr.truthy (or_else x default) = true.
Proof.
  intros Hd. unfold or_else. destruct x as [s|]; [|exact Hd].
  destruct (PyStr.truthy s) eqn:Hs; [exact Hs|exact Hd].
Qed.

Lemma sanitize_id_truthy (value : string) :
  PyStr.truthy (sanitize_id value) = true.
Proof.
  pose proof (sanitize_id_slug_aux value) as H.
  now apply is_slug_parts in H as (Ht & _).
Qed.

(** X10. In every written object, in either branch and after the video
    back-fill, [title] is the name of the root suite, or "Robot Suite" when
    the suite has no name or an empty one, and [scenarioId] is the
    [--suite-id] value as it is when that is given and not empty, and the
    sanitized title otherwise.  Neither is ever the empty string. *)
Theorem artifact_header (a : Args.t) (out : Output) :
  main a = Ok out ->
  exists r title scenario_id,
    load_result (resolve (Args.output_xml a)) = Ok r /\
    dict_lookup (artifacts out) "title" = Some (VStr title) /\
    dict_lookup (artifacts out) "scenarioId" = Some (VStr scenario_id) /\
    title = match suite_name r with
            | Some (String c s) => String c s
            | _ => "Robot Suite"
            end /\
    scenario_id = match Args.suite_id a with
                  | Some (String c s) => String c s
                  | _ => sanitize_id title
                  end /\
    PyStr.truthy title = true /\
    PyStr.truthy scenario_id = true.
Proof.
  intros Hm. destruct (main_ok_load a out Hm) as (r & Hl).
  destruct (main_ok_inv a r out Hl Hm) as (base & Hbase & Hout).
  exists r, (title_of r), (scenario_id_of a r).
  rewrite Hout, !backfill_video_other_key by reflexivity.
  rewrite (branch_artifacts_title a r base Hbase).
  rewrite (branch_artifacts_scenario_id a r base Hbase).
  repeat split; try assumption.
  - unfold title_of, or_else. now destruct (suite_name r) as [[|c s]|].
  - unfold scenario_id_of, or_else.
    now destruct (Args.suite_id a) as [[|c s]|].
  - now apply or_else_truthy.
  - apply or_else_truthy, sanitize_id_truthy.
Qed.

(** X11. An empty string given for [--manifest-path] or for [--video-path]
    is the flag not given: the run looks for the manifest at its default
    place, and fills in no video. *)
Theorem empty_optional_flags_like_absent (a : Args.t) :
  main (with_manifest_path a (Some "")) = main (with_manifest_path a None) /\
  resolved_manifest_path (with_manifest_path a (Some "")) =
    path_join (resolve (Args.output_dir a)) "unity-manifest.json" /\
  main (with_video_path a (Some "")) = main (with_video_path a None).
Proof. repeat split. Qed.

(** X12. When the manifest holds no [videoPath] (or a false one: null, the
    empty string) and a usable [--video-path] is given, the written object
    has the given path as [videoPath] and as [rawVideoPath], whatever
    [rawVideoPath] the manifest holds; the [steps] stay those of the
    manifest. *)
Theorem cli_video_replaces_manifest_raw_video
  (a : Args.t) (out : Output) (text p : string) (m : dict) :
  path_exists (resolved_manifest_path a) = true ->
  read_text (resolved_manifest_path a) = Ok text ->
  json_loads text = Some (VDict m) ->
  truthy (dict_get m "videoPath" VNone) = false ->
  Args.video_path a = Some p -> p <> "" -> path_exists p = true ->
  main a = Ok out ->
  dict_lookup (artifacts out) "videoPath" = Some (VStr p) /\
  dict_lookup (artifacts out) "rawVideoPath" = Some (VStr p) /\
  dict_lookup (artifacts out) "steps" = Some (dict_get m "steps" (VList [])).
Proof.
  intros He Hr Hj Hfalsy Hp Hne Hex Hm.
  destruct (main_ok_load a out Hm) as (r & Hl).
  rewrite (main_of_branch a r Hl) in Hm.
  rewrite (branch_artifacts_manifest a r text (VDict m) He Hr Hj) in Hm.
  cbn [manifest_artifacts bind] in Hm.
  apply write_artifacts_ok in Hm as (-> & _). cbn [artifacts].
  apply truthy_string_nonempty in Hne.
  rewrite backfill_video_eq.
  assert (Happ : backfill_applies (Args.video_path a)
            [ ("scenarioId", VStr (scenario_id_of a r));
              ("title", VStr (title_of r));
              ("steps", dict_get m "steps" (VList []));
              ("videoPath", dict_get m "videoPath" VNone);
              ("rawVideoPath", dict_get m "rawVideoPath" VNone) ] = true).
  { apply backfill_applies_iff. exists p. now repeat split. }
  rewrite Happ, (or_else_some_truthy _ "" p Hp Hne).
  unfold backfilled. rewrite !dict_lookup_set. now repeat split.
Qed.


End RunProperties.

(** * The further properties on concrete runs *)

(** X4 on the step of the first matching invocation, which has a
    description and a start time. *)
Lemma extracted_step_keys_witness :
  In (@build_step (Sample.platform Sample.extraction_world) "/work/out" 1
        Sample.kw_open)
     (steps (@visit (Sample.platform Sample.extraction_world) Sample.suite
               (new_visitor "/work/out"))) /\
  dict_keys (@build_step (Sample.platform Sample.extraction_world)
               "/work/out" 1 Sample.kw_open) =
  ["id"; "title"; "imagePath"; "description"; "startedAtMs"; "endedAtMs"].
Proof.
  assert (Hin : In (@build_step (Sample.platform Sample.extraction_world)
                      "/work/out" 1 Sample.kw_open)
                   (steps (@visit (Sample.platform Sample.extraction_world)
                             Sample.suite (new_visitor "/work/out")))).
  { left. reflexivity. }
  split; [exact Hin|].
  exact (@extracted_step_keys (Sample.platform Sample.extraction_world)
           "/work/out" Sample.suite _ Hin).
Defined.

(** X5 on the step of the invocation whose arguments are empty strings. *)
Lemma extracted_step_texts_witness :
  In (@build_step (Sample.platform Sample.extraction_world) "/work/out" 3
        Sample.kw_empty_id)
     (steps (@visit (Sample.platform Sample.extraction_world) Sample.suite
               (new_visitor "/work/out"))) /\
  exists id title,
    dict_lookup (@build_step (Sample.platform Sample.extraction_world)
                   "/work/out" 3 Sample.kw_empty_id) "id"
      = Some (VStr id) /\
    PyStr.truthy id = true /\
    dict_lookup (@build_step (Sample.platform Sample.extraction_world)
                   "/work/out" 3 Sample.kw_empty_id) "title"
      = Some (VStr title) /\
    PyStr.truthy title = true.
Proof.
  assert (Hin : In (@build_step (Sample.platform Sample.extraction_world)
                      "/work/out" 3 Sample.kw_empty_id)
                   (steps (@visit (Sample.platform Sample.extraction_world)
                             Sample.suite (new_visitor "/work/out")))).
  { right. right. left. reflexivity. }
  split; [exact Hin|].
  destruct (@extracted_step_texts (Sample.platform Sample.extraction_world)
              "/work/out" Sample.suite _ Hin)
    as (keyword & id & title & _ & Hid & Hidt & Htitle & Htt & _).
  exists id, title. repeat split; assumption.
Defined.

(** X7 on the two matching invocations of the sample tree that have no
    usable first argument. *)
Lemma fallback_ids_distinct_witness :
  nth_error (filter is_doc_step (invocations Sample.suite)) 1
    = Some Sample.kw_unnamed /\
  nth_error (filter is_doc_step (invocations Sample.suite)) 2
    = Some Sample.kw_empty_id /\
  nth_error
    (step_ids (steps (@visit (Sample.platform Sample.extraction_world)
                        Sample.suite (new_visitor "/work/out")))) 1 <>
  nth_error
    (step_ids (steps (@visit (Sample.platform Sample.extraction_world)
                        Sample.suite (new_visitor "/work/out")))) 2.
Proof.
  split; [reflexivity|]. split; [reflexivity|].
  apply (@fallback_ids_distinct (Sample.platform Sample.extraction_world)
           "/work/out" Sample.suite 1 2 Sample.kw_unnamed Sample.kw_empty_id);
    try reflexivity.
  intros H. discriminate H.
Defined.

(** X9 on a run without manifest and without video. *)
Lemma artifact_keys_witness :
  @main (Sample.platform Sample.extraction_world) (Sample.cli None None) =
    Ok (Sample.output_of
          (@main (Sample.platform Sample.extraction_world)
                 (Sample.cli None None))) /\
  dict_keys
    (artifacts (Sample.output_of
       (@main (Sample.platform Sample.extraction_world)
              (Sample.cli None None)))) =
  ["scenarioId"; "title"; "steps"].
Proof.
  split; [reflexivity|].
  exact (@artifact_keys (Sample.platform Sample.extraction_world)
           (Sample.cli None None)
           (Sample.output_of
              (@main (Sample.platform Sample.extraction_world)
                     (Sample.cli None None)))
           eq_refl).
Defined.

(** X10 on a suite without a name and a run without [--suite-id]. *)
Lemma artifact_header_witness :
  @main (Sample.platform SampleMore.unnamed_suite_world)
        (Sample.cli None None) =
    Ok (Sample.output_of
          (@main (Sample.platform SampleMore.unnamed_suite_world)
                 (Sample.cli None None))) /\
  exists title scenario_id,
    dict_lookup
      (artifacts (Sample.output_of
         (@main (Sample.platform SampleMore.unnamed_suite_world)
                (Sample.cli None None))))
      "title" = Some (VStr title) /\
    dict_lookup
      (artifacts (Sample.output_of
         (@main (Sample.platform SampleMore.unnamed_suite_world)
                (Sample.cli None None))))
      "scenarioId" = Some (VStr scenario_id) /\
    PyStr.truthy title = true /\
    PyStr.truthy scenario_id = true.
Proof.
  split; [reflexivity|].
  destruct (@artifact_header (Sample.platform SampleMore.unnamed_suite_world)
              (Sample.cli None None)
              (Sample.output_of
                 (@main (Sample.platform SampleMore.unnamed_suite_world)
                        (Sample.cli None None)))
              eq_refl)
    as (r & title & scenario_id & _ & Ht & Hs & _ & _ & Htt & Hst).
  exists title, scenario_id. repeat split; assumption.
Defined.

(** X12 on a manifest that names the raw recording only. *)
Lemma cli_video_replaces_manifest_raw_video_witness :
  dict_lookup SampleMore.raw_only_dict "rawVideoPath"
    = Some (VStr "/rec/raw.mp4") /\
  dict_lookup
    (artifacts (Sample.output_of
       (@main (Sample.platform SampleMore.raw_only_world)
              (Sample.cli None (Some "video.mp4")))))
    "rawVideoPath" = Some (VStr "video.mp4").
Proof.
  split; [reflexivity|].
  apply (@cli_video_replaces_manifest_raw_video
           (Sample.platform SampleMore.raw_only_world)
           (Sample.cli None (Some "video.mp4"))
           (Sample.output_of
              (@main (Sample.platform SampleMore.raw_only_world)
                     (Sample.cli None (Some "video.mp4"))))
           "<raw-only>" "video.mp4" SampleMore.raw_only_dict);
    try reflexivity.
  intros H. discriminate H.
Defined.


(** The [--artifacts-json] path lies below the result file, which is a
    file: the directory cannot be made and the run fails after the
    extraction. *)
Example write_below_a_file_raises :
  @main (Sample.platform Sample.extraction_world)
        SampleMore.cli_below_result_file = Raise FileExistsError.
Proof. reflexivity. Qed.

(** The code points whose lower-casing holds an ASCII letter: U+212A alone
    gives the id [k]; U+0130 before [stanbul] gives [i-stanbul]. *)
Example sanitize_id_kelvin_sign :
  sanitize_id
    (String (ascii_of_N 226) (String (ascii_of_N 132)
       (String (ascii_of_N 170) EmptyString))) = "k".
Proof. reflexivity. Qed.

Example sanitize_id_dotted_capital_i :
  sanitize_id
    (String (ascii_of_N 196) (String (ascii_of_N 176) "stanbul"))
  = "i-stanbul".
Proof. reflexivity. Qed.

(** A manifest file that holds a JSON array makes the run fail at [.get]. *)
Example array_manifest_raises :
  @main (Sample.platform SampleMore.array_manifest_world)
        (Sample.cli None None) = Raise AttributeError.
Proof. reflexivity. Qed.

(** A result file that cannot be loaded makes the run fail at once. *)
Example missing_result_raises :
  @main (Sample.platform SampleMore.no_result_world) (Sample.cli None None)
    = Raise DataError.
Proof. reflexivity. Qed.
